(** * Velocity flight tracker: the core computations of [check_flights.py]

    A shallow embedding of the four pure computations of the tracker
    (points booster cost, offer selection, price percentile label, change
    detection) together with the snapshot builder that connects them.

    Conventions of the embedding:
    - Python [int] is [Z]; Python [float] is modelled by exact rationals [Q]
      where a result rests on comparisons and order (finite floats are
      rationals; NaN and infinities are outside that model), and by IEEE 754
      binary64 values where it rests on the value of a rounded operation
      (the price label of module [Float64]);
    - a Python [str] is a [string], read as UTF-8 where characters beyond
      ASCII matter ([len], [strip]);
    - a Python [dict] read by key is a [gmap]; a value that may be [None] is an
      [option];
    - a Python exception is the [Raise] outcome of the [result] monad;
    - the network calls are not modelled: a search function takes the decoded
      response body as an argument. *)

From Equations Require Import Equations.
From Stdlib Require Import ZArith QArith Qround Lia Lqa Ascii DecimalString DecimalPos.
From Stdlib Require Import Floats.SpecFloat.
From stdpp Require Import gmap strings list fin_maps sorting.

Local Open Scope Z_scope.

(** ** Exceptions *)

Inductive exn :=
| KeyError (key : string)
| KeyErrorInt (key : Z)
| IndexError
| ZeroDivisionError
| ValueError
| OverflowError.

Inductive result (A : Type) :=
| Ok (a : A)
| Raise (e : exn).
Arguments Ok {A} a.
Arguments Raise {A} e.

#[global] Instance result_ret : MRet result := @Ok.
#[global] Instance result_bind : MBind result := λ A B k m,
  match m with
  | Ok a => k a
  | Raise e => Raise e
  end.
#[global] Instance result_fmap : FMap result := λ A B f m,
  match m with
  | Ok a => Ok (f a)
  | Raise e => Raise e
  end.

(** ** Python built-ins used by the tracker *)

Section PySort.
Context {A K : Type} (ltb : K → K → bool) (key : A → K).

(** One step of a stable insertion: [x] stood before every element of [l]
    in the input, so it only moves behind elements with a strictly smaller
    key. *)
Fixpoint sort_insert (x : A) (l : list A) : list A :=
  match l with
  | [] => [x]
  | y :: l' => if ltb (key y) (key x) then y :: sort_insert x l' else x :: l
  end.

(** [list.sort(key=...)] and [sorted(...)]: Python's sort is stable, and a
    stable sort has one possible outcome. *)
Definition sort_by (l : list A) : list A := foldr sort_insert [] l.
End PySort.

(** ** Points booster price table *)

Definition BOOSTER_TABLE : gmap Z Z := list_to_map [
  (1000, 36);     (1500, 51);     (2000, 68);     (2500, 85);
  (3000, 101);    (3500, 118);    (4000, 135);    (4500, 152);
  (5000, 168);    (6000, 201);    (7000, 233);    (8000, 264);
  (9000, 296);    (10000, 325);   (11000, 353);   (12000, 375);
  (13000, 399);   (14000, 427);   (15000, 452);   (16000, 469);
  (17000, 492);   (18000, 512);   (19000, 535);   (20000, 555);
  (21000, 580);   (22000, 605);   (23000, 629);   (24000, 653);
  (25000, 677);   (26000, 698);   (27000, 720);   (28000, 743);
  (29000, 765);   (30000, 787);   (35000, 894);   (40000, 994);
  (45000, 1086);  (50000, 1172);  (60000, 1404);  (70000, 1638);
  (80000, 1872);  (90000, 2106);  (100000, 2340);
  (150000, 3510); (200000, 4680); (250000, 5850)
].

Definition BOOSTER_TIERS : list Z :=
  sort_by Z.ltb id ((map_to_list BOOSTER_TABLE).*1).

(** [next((t for t in BOOSTER_TIERS if t >= chunk), 250_000)] *)
Definition next_tier (chunk : Z) : Z :=
  default 250000 (List.find (λ t, chunk <=? t) BOOSTER_TIERS).

(** [BOOSTER_TABLE[tier]]: a missing key raises [KeyError]. *)
Definition table_price (tier : Z) : result Z :=
  match BOOSTER_TABLE !! tier with
  | Some price => Ok price
  | None => Raise (KeyErrorInt tier)
  end.

(* The table and the tier list are large closed terms: they are evaluated by
   [vm_compute] only. *)
Opaque BOOSTER_TABLE BOOSTER_TIERS.

(** The [while remaining > 0] loop of [booster_cost], with its three
    variables as arguments.  [remaining] drops by [chunk > 0] each turn. *)
Equations? booster_loop (remaining total_bought total_cost : Z) : result (Z * Z)
  by wf (Z.to_nat remaining) lt :=
  booster_loop remaining total_bought total_cost with decide (remaining > 0) => {
    | left _ with table_price (next_tier (Z.min remaining 250000)) => {
        | Ok price =>
            booster_loop (remaining - Z.min remaining 250000)
                         (total_bought + next_tier (Z.min remaining 250000))
                         (total_cost + price);
        | Raise e => Raise e };
    | right _ => Ok (total_bought, total_cost) }.
Proof. lia. Qed.

Definition booster_cost (points_needed : Z) : result (Z * Z) :=
  booster_loop points_needed 0 0.

(** ** Python numbers and strings *)

(** [str(z)] for an [int]. *)
Definition py_str (z : Z) : string := NilZero.string_of_int (Z.to_int z).

(** Group the digits of a reversed digit list in threes; [k] digits of the
    current group were already emitted. *)
Fixpoint commas_rev (digits : list ascii) (k : nat) : list ascii :=
  match digits with
  | [] => []
  | d :: rest =>
      if (k =? 3)%nat then ","%char :: d :: commas_rev rest 1
      else d :: commas_rev rest (S k)
  end.

(** [f'{z:,}'] for an [int]. *)
Definition py_fmt_comma (z : Z) : string :=
  let digits := String.list_ascii_of_string (py_str (Z.abs z)) in
  (if z <? 0 then "-" else "")
  +:+ String.string_of_list_ascii (rev (commas_rev (rev digits) 0)).

Definition Qltb (x y : Q) : bool := negb (Qle_bool y x).

(** [round(x)] of a float: to the nearest integer, halves to the even one. *)
Definition py_round (x : Q) : Z :=
  let f := Qfloor x in
  let r := (x - inject_Z f)%Q in
  if Qltb r (1 # 2) then f
  else if Qltb (1 # 2) r then f + 1
  else if Z.even f then f else f + 1.

(** [int(x)] of a float: truncation towards zero. *)
Definition py_int (x : Q) : Z := Z.quot (Qnum x) (Z.pos (Qden x)).

(** [abs(x)] of a float. *)
Definition py_abs (x : Q) : Q := if Qltb x 0 then (- x)%Q else x.

(** [max(a, b)]: the first of two equal arguments wins. *)
Definition py_max (a b : Q) : Q := if Qltb a b then b else a.

(** [a / b] on floats raises on a zero divisor. *)
Definition py_div (a b : Q) : result Q :=
  if Qeq_bool b 0 then Raise ZeroDivisionError else Ok (a / b)%Q.

(** [f'{x:,.0f}'] for a non-negative float. *)
Definition py_fmt_comma_0f (x : Q) : string := py_fmt_comma (py_round x).

(** [sub in s] on strings. *)
Fixpoint py_contains (sub s : string) : bool :=
  if String.prefix sub s then true
  else match s with
       | EmptyString => false
       | String _ s' => py_contains sub s'
       end.

Definition lower_ascii (c : ascii) : ascii :=
  let n := nat_of_ascii c in
  if ((65 <=? n) && (n <=? 90))%nat then ascii_of_nat (n + 32) else c.

(** [s.lower()], on ASCII text. *)
Fixpoint py_lower (s : string) : string :=
  match s with
  | EmptyString => EmptyString
  | String c s' => String (lower_ascii c) (py_lower s')
  end.

(** [s.split(sep)] for a one-character separator. *)
Fixpoint py_split (sep : ascii) (s : string) : list string :=
  match s with
  | EmptyString => [EmptyString]
  | String c s' =>
      if Ascii.eqb c sep then EmptyString :: py_split sep s'
      else match py_split sep s' with
           | h :: t => String c h :: t
           | [] => [String c EmptyString]
           end
  end.

(** The white space of [str.strip()], each character in UTF-8: the ASCII
    controls 9 to 13 and 28 to 31 and the space, then U+0085, U+00A0,
    U+1680, U+2000 to U+200A, U+2028, U+2029, U+202F, U+205F and U+3000. *)
Definition WHITESPACE : list (list ascii) :=
  map ascii_of_nat <$>
    [[9]; [10]; [11]; [12]; [13]; [28]; [29]; [30]; [31]; [32];
     [194; 133]; [194; 160]; [225; 154; 128];
     [226; 128; 128]; [226; 128; 129]; [226; 128; 130]; [226; 128; 131];
     [226; 128; 132]; [226; 128; 133]; [226; 128; 134]; [226; 128; 135];
     [226; 128; 136]; [226; 128; 137]; [226; 128; 138];
     [226; 128; 168]; [226; 128; 169]; [226; 128; 175];
     [226; 129; 159]; [227; 128; 128]]%nat.

(** The text behind one leading character of [chars], if it has one. *)
Definition strip_one (chars : list (list ascii)) (l : list ascii) : option (list ascii) :=
  (λ c, drop (length c) l) <$> List.find (λ c, bool_decide (c `prefix_of` l)) chars.

(** At most [n] leading characters of [chars] are taken off; the length of
    the text is enough for all of them. *)
Fixpoint lstrip_upto (chars : list (list ascii)) (n : nat) (l : list ascii) : list ascii :=
  match n with
  | O => l
  | S n' =>
      match strip_one chars l with
      | Some l' => lstrip_upto chars n' l'
      | None => l
      end
  end.

Definition lstrip (chars : list (list ascii)) (l : list ascii) : list ascii :=
  lstrip_upto chars (length l) l.

(** [s.strip()]: the trailing white space is taken off the reversed text. *)
Definition py_strip (s : string) : string :=
  String.string_of_list_ascii
    (rev (lstrip (@rev ascii <$> WHITESPACE)
            (rev (lstrip WHITESPACE (String.list_ascii_of_string s))))).

(** Truthiness of a string and of a float. *)
Definition nonempty (s : string) : bool :=
  match s with EmptyString => false | _ => true end.
Definition truthy (x : Q) : bool := negb (Qeq_bool x 0).

(** ** Configuration *)

Definition PASSENGERS : Z := 2.
Definition MAX_STOPS : nat := 1.
Definition ALL_CARRIERS : list string := ["QR"; "EK"; "EY"; "SQ"].
Definition CARRIER_NAMES : gmap string string := list_to_map [
  ("QR", "Qatar Airways");
  ("EK", "Emirates");
  ("EY", "Etihad");
  ("SQ", "Singapore Airlines")
].
Definition VELOCITY_PROGRAM : string := "velocity".

(** [", ".join(CARRIER_NAMES.get(c, c) for c in codes)] *)
Definition carrier_names (codes : list string) : string :=
  String.concat ", " ((λ c, default c (CARRIER_NAMES !! c)) <$> codes).

(** ** Cash fares ([search_cash_fares]) *)

Module Cash.
(** The [record] dict built for a cash fare. *)
Record offer := {
  cabin : string;
  carrier_codes : list string;
  carrier_label : string;
  is_qatar : bool;
  flight_nums : string;
  via : string;
  layover_min : Z;
  total_min : Z;
  dep : string;
  arr : string;
  price_total : Q;
  price_pp : Q;
}.
End Cash.

(** The first itinerary of a flight offer, as the loop reads it: the carrier
    code of each segment ([operating.carrierCode], else [carrierCode]) and
    the display values that the date and duration helpers take from the
    segments, which no selection reads. *)
Record Itinerary := {
  segment_codes : list string;
  it_flight_nums : string;
  it_via : string;
  it_layover_min : Z;
  it_total_min : Z;
  it_dep : string;
  it_arr : string;
}.

(** One element of the [data] list of the flight-offers response. *)
Record FlightOffer := {
  itineraries : list Itinerary;
  grandTotal : Q;
}.

(** The body of [for offer in offers] up to the [record] dict; [None] where
    the loop takes a [continue].  An itinerary without segments passes both
    filters, and [segments[0]] then raises. *)
Definition cash_record (cabin : string) (offer : FlightOffer)
    : result (option Cash.offer) :=
  match itineraries offer with
  | [] => Ok None
  | it :: _ =>
      if (MAX_STOPS + 1 <? length (segment_codes it))%nat then Ok None
      else
        let carriers_on_flight : gset string := list_to_set (segment_codes it) in
        if bool_decide (carriers_on_flight ⊆ (list_to_set ALL_CARRIERS : gset string)) then
          let price_total := grandTotal offer in
          let price_pp := (price_total / inject_Z PASSENGERS)%Q in
          match segment_codes it with
          | [] => Raise IndexError
          | _ :: _ =>
              let carrier_codes := sort_by String.ltb id (elements carriers_on_flight) in
              let is_qatar := bool_decide ("QR" ∈ carriers_on_flight) in
              Ok (Some {|
                Cash.cabin := py_lower cabin;
                Cash.carrier_codes := carrier_codes;
                Cash.carrier_label := carrier_names carrier_codes;
                Cash.is_qatar := is_qatar;
                Cash.flight_nums := it_flight_nums it;
                Cash.via := it_via it;
                Cash.layover_min := it_layover_min it;
                Cash.total_min := it_total_min it;
                Cash.dep := it_dep it;
                Cash.arr := it_arr it;
                Cash.price_total := price_total;
                Cash.price_pp := price_pp;
              |})
          end
        else Ok None
  end.

(** The loop itself, on [qatar_results] and [other_results]: the record is
    appended to the list its [is_qatar] flag names. *)
Fixpoint cash_scan (cabin : string) (offers : list FlightOffer)
    (qatar_results other_results : list Cash.offer)
    : result (list Cash.offer * list Cash.offer) :=
  match offers with
  | [] => Ok (qatar_results, other_results)
  | offer :: offers' =>
      step ← cash_record cabin offer;
      match step with
      | None => cash_scan cabin offers' qatar_results other_results
      | Some record =>
          if Cash.is_qatar record then
            cash_scan cabin offers' (qatar_results ++ [record]) other_results
          else
            cash_scan cabin offers' qatar_results (other_results ++ [record])
      end
  end.

(** [results = []], then the head of each non-empty list is appended. *)
Definition first_of_each {A} (qatar_results other_results : list A) : list A :=
  let results := [] in
  let results :=
    match qatar_results with x :: _ => results ++ [x] | [] => results end in
  let results :=
    match other_results with x :: _ => results ++ [x] | [] => results end in
  results.

(** [search_cash_fares], from the decoded [offers] on. *)
Definition search_cash_fares (cabin : string) (offers : list FlightOffer)
    : result (list Cash.offer) :=
  '(qatar_results, other_results) ← cash_scan cabin offers [] [];
  let qatar_results := sort_by Qltb Cash.price_total qatar_results in
  let other_results := sort_by Qltb Cash.price_total other_results in
  mret (first_of_each qatar_results other_results).

(** ** Velocity reward seats ([search_velocity_seats]) *)

Module Reward.
(** The [record] dict built for a reward seat. *)
Record offer := {
  cabin : string;
  carrier_codes : list string;
  carrier_label : string;
  is_qatar : bool;
  flights : string;
  seats_avail : Z;
  points_pp : Z;
  taxes_pp : Q;
  total_points : Z;
  taxes_total : Q;
  pts_bought : Z;
  booster_aud : Z;
  booster_total : Q;
}.
End Reward.

(** One element of the [data] list of the seats.aero response, as the
    service sends it: the program, the carrier list and the flight numbers
    are strings, read as [""] when missing; a missing or null number reads
    as 0, a missing flag as [False]. *)
Record SeatsItem := {
  Source : string;
  JAvailable : bool;
  YAvailable : bool;
  JRemainingSeats : Z;
  YRemainingSeats : Z;
  JMileageCost : Z;
  YMileageCost : Z;
  JTaxes : Q;
  YTaxes : Q;
  Carriers : string;
  FlightNumbers : string;
}.

(** The body of [for item in data] up to the [record] dict; [None] where the
    loop takes a [continue].  [booster_cost] may raise. *)
Definition seats_record (cabin : string) (item : SeatsItem)
    : result (option Reward.offer) :=
  let is_biz := String.eqb cabin "business" in
  if negb (String.eqb (py_lower (Source item)) VELOCITY_PROGRAM) then Ok None
  else if negb (if is_biz then JAvailable item else YAvailable item) then Ok None
  else
    let points_pp := if is_biz then JMileageCost item else YMileageCost item in
    let taxes_pp := if is_biz then JTaxes item else YTaxes item in
    let seats_avail :=
      if is_biz then JRemainingSeats item else YRemainingSeats item in
    let carriers := Carriers item in
    let flights := FlightNumbers item in
    let carrier_codes :=
      py_strip <$> List.filter (λ c, nonempty (py_strip c)) (py_split "," carriers) in
    if negb (existsb (λ c, bool_decide (c ∈ ALL_CARRIERS)) carrier_codes) then Ok None
    else
      let total_points := points_pp * PASSENGERS in
      let taxes_total := (taxes_pp * inject_Z PASSENGERS)%Q in
      '(pts_bought, booster_aud) ← booster_cost total_points;
      let booster_total := (inject_Z booster_aud + taxes_total)%Q in
      let is_qatar := bool_decide ("QR" ∈ carrier_codes) in
      mret (Some {|
        Reward.cabin := cabin;
        Reward.carrier_codes := carrier_codes;
        Reward.carrier_label := carrier_names carrier_codes;
        Reward.is_qatar := is_qatar;
        Reward.flights := flights;
        Reward.seats_avail := seats_avail;
        Reward.points_pp := points_pp;
        Reward.taxes_pp := taxes_pp;
        Reward.total_points := total_points;
        Reward.taxes_total := taxes_total;
        Reward.pts_bought := pts_bought;
        Reward.booster_aud := booster_aud;
        Reward.booster_total := booster_total;
      |}).

(** The loop itself, on [qatar_results] and [other_results]: the record is
    appended to the list its [is_qatar] flag names. *)
Fixpoint seats_scan (cabin : string) (data : list SeatsItem)
    (qatar_results other_results : list Reward.offer)
    : result (list Reward.offer * list Reward.offer) :=
  match data with
  | [] => Ok (qatar_results, other_results)
  | item :: data' =>
      step ← seats_record cabin item;
      match step with
      | None => seats_scan cabin data' qatar_results other_results
      | Some record =>
          if Reward.is_qatar record then
            seats_scan cabin data' (qatar_results ++ [record]) other_results
          else
            seats_scan cabin data' qatar_results (other_results ++ [record])
      end
  end.

(** [search_velocity_seats], from the decoded [data] on. *)
Definition search_velocity_seats (cabin : string) (data : list SeatsItem)
    : result (list Reward.offer) :=
  '(qatar_results, other_results) ← seats_scan cabin data [] [];
  let qatar_results := sort_by Z.ltb Reward.points_pp qatar_results in
  let other_results := sort_by Z.ltb Reward.points_pp other_results in
  mret (first_of_each qatar_results other_results).

(** ** Change detection ([summarise_for_state], [build_diff]) *)

(** A state dict: each tracked key holds an [int] or [None]. *)
Abbreviation state := (gmap string (option Z)).

(** [d.get(key)]: a missing key reads as [None]. *)
Definition py_get (d : state) (key : string) : option Z := mjoin (d !! key).

Definition cash_pp (offers : list Cash.offer) : option Z :=
  match offers with
  | o :: _ => Some (py_round (Cash.price_pp o))
  | [] => None
  end.

Definition pts_pp (offers : list Reward.offer) : option Z :=
  match offers with
  | o :: _ => Some (Reward.points_pp o)
  | [] => None
  end.

Definition summarise_for_state
    (cash_biz : list Cash.offer) (pts_biz : list Reward.offer)
    (cash_biz_mad_doh : list Cash.offer) (pts_biz_mad_doh : list Reward.offer)
    (cash_biz_doh_syd : list Cash.offer) (pts_biz_doh_syd : list Reward.offer)
    (cash_eco : list Cash.offer) (pts_eco : list Reward.offer) : state :=
  list_to_map [
    ("biz_cash_pp",        cash_pp cash_biz);
    ("biz_pts_pp_through", pts_pp pts_biz);
    ("biz_pts_pp_doh_syd", pts_pp pts_biz_doh_syd);
    ("eco_cash_pp",        cash_pp cash_eco);
    ("eco_pts_pp",         pts_pp pts_eco);
    ("biz_seats_through",
       match pts_biz with o :: _ => Some (Reward.seats_avail o) | [] => Some 0 end);
    ("biz_seats_doh_syd",
       match pts_biz_doh_syd with
       | o :: _ => Some (Reward.seats_avail o)
       | [] => Some 0
       end)
  ].

Definition FIRST_RUN : string := "_(first run — no previous data)_".
Definition NO_CHANGES : string := "   No changes from yesterday".

(** The [labels] dict of [build_diff], in insertion order. *)
Definition labels : list (string * string) := [
  ("biz_cash_pp",        "Business cash (pp)");
  ("biz_pts_pp_through", "Business points through (pp)");
  ("biz_pts_pp_doh_syd", "DOH→SYD points (pp)");
  ("eco_cash_pp",        "Economy cash (pp)");
  ("eco_pts_pp",         "Economy points (pp)");
  ("biz_seats_through",  "Business seats (through)");
  ("biz_seats_doh_syd",  "Business seats (DOH→SYD)")
].

(** The body of [for key, label in labels.items()]: the line appended to
    [changes], if any. *)
Definition diff_line (key label : string) (cur prev : option Z) : option string :=
  match cur, prev with
  | None, None => None
  | _, _ =>
      if bool_decide (cur ≠ prev) then
        let is_price := py_contains "cash" key || py_contains "pts" key in
        match prev, cur with
        | None, Some cur =>
            Some ("   " +:+ label +:+ ": now available ("
                  +:+ (if is_price then "AUD $" +:+ py_fmt_comma cur else py_str cur)
                  +:+ ") 🆕")
        | _, None =>
            Some ("   " +:+ label +:+ ": no longer available ❌")
        | Some prev, Some cur =>
            let diff := cur - prev in
            let unit :=
              if py_contains "pts" key then "pts"
              else if py_contains "seats" key then "seats" else "AUD $" in
            let sign := if bool_decide (diff > 0) then "+" else "" in
            let emoji :=
              if bool_decide (diff > 0) && is_price then "🔴"
              else if bool_decide (diff < 0) && is_price then "🟢"
              else if bool_decide (diff > 0) && py_contains "seats" key then "🟢"
              else "🔴" in
            let val_str :=
              if py_contains "cash" key then "AUD $" +:+ py_fmt_comma cur
              else py_fmt_comma cur in
            let prev_str :=
              if py_contains "cash" key then "AUD $" +:+ py_fmt_comma prev
              else py_fmt_comma prev in
            Some ("   " +:+ label +:+ ": " +:+ prev_str +:+ " → " +:+ val_str +:+ " "
                  +:+ "(" +:+ sign +:+ py_fmt_comma (Z.abs diff) +:+ " " +:+ unit
                  +:+ ") " +:+ emoji)
        end
      else None
  end.

(** [not previous] holds of the empty dict, which [load_previous_state]
    returns when there is no stored state. *)
Definition build_diff (current previous : state) : list string :=
  if bool_decide (previous = ∅) then [FIRST_RUN]
  else
    let changes :=
      omap (λ '(key, label), diff_line key label (py_get current key) (py_get previous key))
           labels in
    match changes with
    | [] => [NO_CHANGES]
    | _ => changes
    end.

(** ** Price context ([price_percentile_label]) *)

(** The label in exact arithmetic, for the chain of comparisons, the markers
    and the order of the percentiles; the values that the rounded operations
    of a [float] give are in [Float64] below. *)

Definition UNAVAILABLE : string := "_(price data unavailable)_".

(** The percentile part of the label: ["~{p}th"] or [">{p}th"]. *)
Inductive pct :=
| Approx (p : Z)
| Above (p : Z).

Definition pct_value (c : pct) : Z :=
  match c with Approx p | Above p => p end.

Definition pct_str (c : pct) : string :=
  match c with
  | Approx p => "~" +:+ py_str p +:+ "th"
  | Above p => ">" +:+ py_str p +:+ "th"
  end.

(** [metrics[key]] raises [KeyError] on a missing key. *)
Definition py_getitem (metrics : gmap string Q) (key : string) : result Q :=
  match metrics !! key with
  | Some v => Ok v
  | None => Raise (KeyError key)
  end.

(** [ratio = (price_pp - lo) / max(hi - lo, 1)], [p = int(base + ratio * 25)]. *)
Definition interpolate (base : Z) (price_pp lo hi : Q) : result Z :=
  ratio ← py_div (price_pp - lo)%Q (py_max (hi - lo)%Q 1%Q);
  mret (py_int (inject_Z base + ratio * 25)%Q).

(** The [if]/[elif] chain: the percentile and its emoji. *)
Definition estimate (price_pp mn low med hi mx : Q) : result (pct * string) :=
  if Qle_bool price_pp mn then Ok (Approx 10, "🟢")
  else if Qle_bool price_pp low then Ok (Approx 25, "🟢")
  else if Qle_bool price_pp med then
    p ← interpolate 25 price_pp low med; mret (Approx p, "🟢")
  else if Qle_bool price_pp hi then
    p ← interpolate 50 price_pp med hi; mret (Approx p, "🟡")
  else if Qle_bool price_pp mx then
    p ← interpolate 75 price_pp hi mx; mret (Approx p, "🔴")
  else Ok (Above 95, "🔴").

(** The last two statements: the distance to the median and the label. *)
Definition label_text (c : pct) (emoji : string) (price_pp med : Q) : string :=
  let vs_median := (price_pp - med)%Q in
  let direction :=
    "AUD $" +:+ py_fmt_comma_0f (py_abs vs_median) +:+ " "
    +:+ (if Qltb 0 vs_median then "above" else "below") +:+ " median" in
  pct_str c +:+ " percentile · " +:+ direction +:+ " " +:+ emoji.

(** Truthiness of [metrics.get("median")]. *)
Definition has_median (metrics : gmap string Q) : bool :=
  match metrics !! "median" with
  | Some v => truthy v
  | None => false
  end.

Definition price_percentile_label (price_pp : Q) (metrics : option (gmap string Q))
    : result string :=
  match metrics with
  | None => Ok UNAVAILABLE
  | Some m =>
      (* [not metrics or not metrics.get("median")] *)
      if bool_decide (m = ∅) || negb (has_median m) then Ok UNAVAILABLE
      else
        mn ← py_getitem m "min";
        low ← py_getitem m "low";
        med ← py_getitem m "median";
        hi ← py_getitem m "high";
        mx ← py_getitem m "max";
        '(c, emoji) ← estimate price_pp mn low med hi mx;
        mret (label_text c emoji price_pp med)
  end.

(** ** Price context in double precision *)

(** The label once more, on IEEE 754 binary64 values as Python's [float]
    has them: every operation rounds to the nearest double, halves to the
    even one, and NaN and the two infinities are values like the others.
    The percentile is cut off by [int()], so a rounding in the last place
    can move it by one, and [int()] raises on NaN and on an infinity; the
    statements about the value of the percentile are made here. *)
Module Float64.

Abbreviation f64 := spec_float.

Definition prec : Z := 53.
Definition emax : Z := 1024.

(** [float(z)] of an [int], as the mixed operations apply it to [1], [25],
    [50] and [75]. *)
Definition of_int (z : Z) : f64 := binary_normalize prec emax z 0 false.

Definition py_add : f64 → f64 → f64 := SFadd prec emax.
Definition py_sub : f64 → f64 → f64 := SFsub prec emax.
Definition py_mul : f64 → f64 → f64 := SFmul prec emax.

Definition is_zero (x : f64) : bool :=
  match x with S754_zero _ => true | _ => false end.

(** [a / b] raises on a zero divisor, whatever [a] is. *)
Definition py_div (a b : f64) : result f64 :=
  if is_zero b then Raise ZeroDivisionError else Ok (SFdiv prec emax a b).

(** [max(a, b)] keeps [a] unless [b > a]; a NaN compares false. *)
Definition py_max (a b : f64) : f64 := if SFltb a b then b else a.

(** [int(x)]: truncation towards zero; NaN and the infinities raise. *)
Definition py_int (x : f64) : result Z :=
  match x with
  | S754_nan => Raise ValueError
  | S754_infinity _ => Raise OverflowError
  | S754_zero _ => Ok 0
  | S754_finite s m e =>
      let magnitude := if 0 <=? e then Z.pos m * 2 ^ e else Z.pos m / 2 ^ (- e) in
      Ok (if s then - magnitude else magnitude)
  end.

(** The exact value of the finite double [m · 2^e]. *)
Definition magnitude (m : positive) (e : Z) : Q :=
  if 0 <=? e then inject_Z (Z.pos m * 2 ^ e) else Z.pos m # Z.to_pos (2 ^ (- e)).

(** [f'{x:,.0f}']: the exact value rounded to an integer, halves to the
    even one. *)
Definition py_fmt_comma_0f (x : f64) : string :=
  (match x with
   | S754_zero s | S754_infinity s | S754_finite s _ _ => if s then "-" else ""
   | S754_nan => ""
   end)
  +:+ match x with
      | S754_nan => "nan"
      | S754_infinity _ => "inf"
      | S754_zero _ => "0"
      | S754_finite _ m e => py_fmt_comma (py_round (magnitude m e))
      end.

(** Truthiness of a float: only the two zeros are false. *)
Definition truthy (x : f64) : bool := negb (is_zero x).

Definition py_getitem (metrics : gmap string f64) (key : string) : result f64 :=
  match metrics !! key with
  | Some v => Ok v
  | None => Raise (KeyError key)
  end.

(** [ratio = (price_pp - lo) / max(hi - lo, 1)], [p = int(base + ratio * 25)]. *)
Definition interpolate (base : Z) (price_pp lo hi : f64) : result Z :=
  ratio ← py_div (py_sub price_pp lo) (py_max (py_sub hi lo) (of_int 1));
  py_int (py_add (of_int base) (py_mul ratio (of_int 25))).

Definition estimate (price_pp mn low med hi mx : f64) : result (pct * string) :=
  if SFleb price_pp mn then Ok (Approx 10, "🟢")
  else if SFleb price_pp low then Ok (Approx 25, "🟢")
  else if SFleb price_pp med then
    p ← interpolate 25 price_pp low med; mret (Approx p, "🟢")
  else if SFleb price_pp hi then
    p ← interpolate 50 price_pp med hi; mret (Approx p, "🟡")
  else if SFleb price_pp mx then
    p ← interpolate 75 price_pp hi mx; mret (Approx p, "🔴")
  else Ok (Above 95, "🔴").

Definition label_text (c : pct) (emoji : string) (price_pp med : f64) : string :=
  let vs_median := py_sub price_pp med in
  let direction :=
    "AUD $" +:+ py_fmt_comma_0f (SFabs vs_median) +:+ " "
    +:+ (if SFltb (of_int 0) vs_median then "above" else "below") +:+ " median" in
  pct_str c +:+ " percentile · " +:+ direction +:+ " " +:+ emoji.

Definition has_median (metrics : gmap string f64) : bool :=
  match metrics !! "median" with
  | Some v => truthy v
  | None => false
  end.

Definition price_percentile_label (price_pp : f64) (metrics : option (gmap string f64))
    : result string :=
  match metrics with
  | None => Ok UNAVAILABLE
  | Some m =>
      if bool_decide (m = ∅) || negb (has_median m) then Ok UNAVAILABLE
      else
        mn ← py_getitem m "min";
        low ← py_getitem m "low";
        med ← py_getitem m "median";
        hi ← py_getitem m "high";
        mx ← py_getitem m "max";
        '(c, emoji) ← estimate price_pp mn low med hi mx;
        mret (label_text c emoji price_pp med)
  end.

(** The interpolated percentile as the spec words it: the denominator is
    [hi - lo], and 1 when [hi == lo]. *)
Definition spec_interpolate (base : Z) (price_pp lo hi : f64) : result Z :=
  ratio ← py_div (py_sub price_pp lo)
                 (if SFeqb hi lo then of_int 1 else py_sub hi lo);
  py_int (py_add (of_int base) (py_mul ratio (of_int 25))).

(** The double that [float()] makes of the decimal [n / d], for integers
    that are doubles themselves: one correctly rounded division. *)
Definition decimal (n d : Z) : f64 := SFdiv prec emax (of_int n) (of_int d).

Definition distribution (mn low med hi mx : f64) : gmap string f64 :=
  list_to_map [("min", mn); ("max", mx); ("median", med); ("low", low); ("high", hi)].

(** A distribution whose median is half a dollar above its low point. *)
Definition narrow_distribution : gmap string f64 :=
  distribution (of_int 50) (of_int 100) (decimal 201 2) (of_int 200) (of_int 300).

(** A distribution of finite doubles whose differences overflow. *)
Definition wide_distribution : gmap string f64 :=
  distribution (of_int (-175 * 10 ^ 306)) (of_int (-17 * 10 ^ 307))
    (of_int (17 * 10 ^ 307)) (of_int (175 * 10 ^ 306)) (of_int (179 * 10 ^ 306)).

(** Fares with cents, none of them a double exactly. *)
Definition cents_distribution : gmap string f64 :=
  distribution (of_int 1500) (decimal 191589 100) (decimal 291589 100)
    (of_int 3500) (of_int 4000).

End Float64.

Declare Scope f64_scope.
Delimit Scope f64_scope with f64.
Infix "+" := Float64.py_add : f64_scope.
Infix "-" := Float64.py_sub : f64_scope.
Infix "*" := Float64.py_mul : f64_scope.
(** The quotient by a divisor that is not a zero. *)
Infix "/" := (SFdiv Float64.prec Float64.emax) : f64_scope.


(** ** Vocabulary of the statements *)

(** The candidate pools: the records of the offers that pass the filters of
    the loop, in input order. *)
Definition cash_pool (cabin : string) (offers : list FlightOffer) : list Cash.offer :=
  omap (λ offer, match cash_record cabin offer with
                 | Ok step => step
                 | Raise _ => None
                 end) offers.

(** A flight offer as the fares service sends it: its first itinerary, if
    it has one, has at least one segment. *)
Definition has_segments (offer : FlightOffer) : Prop :=
  ∀ it, head (itineraries offer) = Some it → segment_codes it ≠ [].

Definition seats_pool (cabin : string) (data : list SeatsItem) : list Reward.offer :=
  omap (λ item, match seats_record cabin item with
                | Ok step => step
                | Raise _ => None
                end) data.

Section Cheapest.
Context {A K : Type} (lt le : K → K → Prop) (key : A → K) (P : A → Prop).

(** [x] is an element of [pool] with [P] whose key is the least among
    those with [P], and the first such element in the order of [pool]. *)
Definition first_cheapest (pool : list A) (x : A) : Prop :=
  ∃ before after,
    pool = before ++ x :: after
    ∧ P x
    ∧ (∀ y, y ∈ before → P y → lt (key x) (key y))
    ∧ (∀ y, y ∈ after → P y → le (key x) (key y)).

(** The selected element if there is one with [P], and nothing otherwise. *)
Definition cheapest_if_any (pool : list A) (o : option A) : Prop :=
  match o with
  | Some x => first_cheapest pool x
  | None => ∀ y, y ∈ pool → ¬ P y
  end.
End Cheapest.

(** What the selector promises about [result] for a candidate [pool]: the
    first cheapest offer with the preferred carrier, then the first cheapest
    offer without it, each one only if there is such an offer. *)
Definition selection_of {A K : Type} (lt le : K → K → Prop) (key : A → K)
    (preferred : A → Prop) (pool result : list A) : Prop :=
  ∃ best_preferred best_other : option A,
    result = option_list best_preferred ++ option_list best_other
    ∧ cheapest_if_any lt le key preferred pool best_preferred
    ∧ cheapest_if_any lt le key (λ x, ¬ preferred x) pool best_other.

(** The six branches of [estimate], each with the conditions under which
    the chain reaches it. *)
Inductive estimate_branch (price mn low med hi mx : Q) : pct → string → Prop :=
| branch_min :
    (price <= mn)%Q → estimate_branch price mn low med hi mx (Approx 10) "🟢"
| branch_low :
    (mn < price)%Q → (price <= low)%Q →
    estimate_branch price mn low med hi mx (Approx 25) "🟢"
| branch_median :
    (mn < price)%Q → (low < price)%Q → (price <= med)%Q →
    estimate_branch price mn low med hi mx
      (Approx (py_int (25 + (price - low) / py_max (med - low) 1 * 25)%Q)) "🟢"
| branch_high :
    (mn < price)%Q → (low < price)%Q → (med < price)%Q → (price <= hi)%Q →
    estimate_branch price mn low med hi mx
      (Approx (py_int (50 + (price - med) / py_max (hi - med) 1 * 25)%Q)) "🟡"
| branch_max :
    (mn < price)%Q → (low < price)%Q → (med < price)%Q → (hi < price)%Q →
    (price <= mx)%Q →
    estimate_branch price mn low med hi mx
      (Approx (py_int (75 + (price - hi) / py_max (mx - hi) 1 * 25)%Q)) "🔴"
| branch_above :
    (mn < price)%Q → (low < price)%Q → (med < price)%Q → (hi < price)%Q →
    (mx < price)%Q →
    estimate_branch price mn low med hi mx (Above 95) "🔴".

(** The snapshot as the spec words it: each entry is the projection of the
    preferred-carrier offer of its selection, and absent when the selection
    has none. *)
Definition preferred_snapshot
    (cash_biz : list Cash.offer) (pts_biz : list Reward.offer)
    (pts_biz_doh_syd : list Reward.offer)
    (cash_eco : list Cash.offer) (pts_eco : list Reward.offer) : state :=
  let cash sel := (λ o, py_round (Cash.price_pp o)) <$> List.find Cash.is_qatar sel in
  let pts sel := Reward.points_pp <$> List.find Reward.is_qatar sel in
  let seats sel := Reward.seats_avail <$> List.find Reward.is_qatar sel in
  list_to_map [
    ("biz_cash_pp",        cash cash_biz);
    ("biz_pts_pp_through", pts pts_biz);
    ("biz_pts_pp_doh_syd", pts pts_biz_doh_syd);
    ("eco_cash_pp",        cash cash_eco);
    ("eco_pts_pp",         pts pts_eco);
    ("biz_seats_through",  seats pts_biz);
    ("biz_seats_doh_syd",  seats pts_biz_doh_syd)
  ].

(** ** Sample data *)

Definition sample_itinerary (codes : list string) (flights via : string) : Itinerary := {|
  segment_codes := codes;
  it_flight_nums := flights;
  it_via := via;
  it_layover_min := 95;
  it_total_min := 1300;
  it_dep := "2026-09-14T15:05:00";
  it_arr := "2026-09-15T21:50:00";
|}.

(** The two business fares of the end-to-end scenario: 2,800 per person on
    the preferred carrier and 3,100 per person on another one. *)
Definition qatar_fare : FlightOffer := {|
  itineraries := [sample_itinerary ["QR"; "QR"] "QR150 / QR908" "DOH"];
  grandTotal := 5600;
|}.

Definition emirates_fare : FlightOffer := {|
  itineraries := [sample_itinerary ["EK"; "EK"] "EK142 / EK414" "DXB"];
  grandTotal := 6200;
|}.

Definition qatar_seat : SeatsItem := {|
  Source := "velocity";
  JAvailable := true;
  YAvailable := false;
  JRemainingSeats := 2;
  YRemainingSeats := 0;
  JMileageCost := 139000;
  YMileageCost := 0;
  JTaxes := 512;
  YTaxes := 0;
  Carriers := "QR";
  FlightNumbers := "QR150, QR908";
|}.

(** A seat on another carrier; the program name and the carrier list are
    written less tidily, with a no-break space behind the second code. *)
Definition emirates_seat : SeatsItem := {|
  Source := "Velocity";
  JAvailable := true;
  YAvailable := true;
  JRemainingSeats := 4;
  YRemainingSeats := 9;
  JMileageCost := 127500;
  YMileageCost := 59000;
  JTaxes := 195;
  YTaxes := 120;
  Carriers := " EK ,, QF" +:+ String.string_of_list_ascii (ascii_of_nat <$> [194; 160]%nat);
  FlightNumbers := "EK415, QF8413";
|}.

(** The same seat in another program. *)
Definition other_program_seat : SeatsItem := {|
  Source := "qantas";
  JAvailable := true;
  YAvailable := true;
  JRemainingSeats := 4;
  YRemainingSeats := 9;
  JMileageCost := 90000;
  YMileageCost := 40000;
  JTaxes := 195;
  YTaxes := 120;
  Carriers := "EK";
  FlightNumbers := "EK415";
|}.

(** The records of the two Velocity seats in business class. *)
Definition qatar_reward : Reward.offer := {|
  Reward.cabin := "business";
  Reward.carrier_codes := ["QR"];
  Reward.carrier_label := "Qatar Airways";
  Reward.is_qatar := true;
  Reward.flights := "QR150, QR908";
  Reward.seats_avail := 2;
  Reward.points_pp := 139000;
  Reward.taxes_pp := 512;
  Reward.total_points := 278000;
  Reward.taxes_total := 1024;
  Reward.pts_bought := 278000;
  Reward.booster_aud := 6593;
  Reward.booster_total := 7617;
|}.

Definition emirates_reward : Reward.offer := {|
  Reward.cabin := "business";
  Reward.carrier_codes := ["EK"; "QF"];
  Reward.carrier_label := "Emirates, QF";
  Reward.is_qatar := false;
  Reward.flights := "EK415, QF8413";
  Reward.seats_avail := 4;
  Reward.points_pp := 127500;
  Reward.taxes_pp := 195;
  Reward.total_points := 255000;
  Reward.taxes_total := 390;
  Reward.pts_bought := 255000;
  Reward.booster_aud := 6018;
  Reward.booster_total := 6408;
|}.

(** A five-point distribution as [get_price_analysis] builds it. *)
Definition distribution (mn low med hi mx : Q) : gmap string Q :=
  list_to_map [("min", mn); ("max", mx); ("median", med); ("low", low); ("high", hi)].

Definition sample_distribution : gmap string Q :=
  distribution 2000 2400 2700 3200 4000.

(** ** Further model: price analysis, display helpers, notifications *)

Definition upper_ascii (c : ascii) : ascii :=
  let n := nat_of_ascii c in
  if ((97 <=? n) && (n <=? 122))%nat then ascii_of_nat (n - 32) else c.

(** [s.upper()], on ASCII text. *)
Fixpoint py_upper (s : string) : string :=
  match s with
  | EmptyString => EmptyString
  | String c s' => String (upper_ascii c) (py_upper s')
  end.

(** One element of [priceMetrics]: [travelClass] reads as [""] when
    missing, and [amount] holds the numbers of the keys that are present. *)
Record PriceMetric := {
  travelClass : string;
  amount : gmap string Q;
}.

(** One element of the [data] list of the price-metrics response. *)
Record PriceItem := {
  priceMetrics : list PriceMetric;
}.

(** [float(amounts.get(key, 0))] *)
Definition amount_or_zero (m : PriceMetric) (key : string) : Q :=
  default 0%Q (amount m !! key).

(** [get_price_analysis], from the decoded [data] on: the two nested loops
    return at the first metric of the cabin. *)
Fixpoint get_price_analysis (cabin : string) (data : list PriceItem)
    : option (gmap string Q) :=
  match data with
  | [] => None
  | item :: data' =>
      match List.find (λ m, String.eqb (py_upper (travelClass m)) (py_upper cabin))
                      (priceMetrics item) with
      | Some m =>
          Some (distribution (amount_or_zero m "min") (amount_or_zero m "low")
                  (amount_or_zero m "medium") (amount_or_zero m "high")
                  (amount_or_zero m "max"))
      | None => get_price_analysis cabin data'
      end
  end.

(** A state dict with exactly the tracked keys, as [summarise_for_state]
    builds it. *)
Definition tracked_keys (S : state) : Prop :=
  ∀ key, is_Some (S !! key) ↔ key ∈ labels.*1.

(** A response with an economy metric before the business one. *)
Definition sample_metrics : list PriceItem := [
  {| priceMetrics := [
       {| travelClass := "ECONOMY";
          amount := {["min" := 900%Q; "medium" := 1400%Q; "max" := 2500%Q]} |};
       {| travelClass := "Business";
          amount := {["min" := 2000%Q; "low" := 2400%Q; "medium" := 2700%Q;
                      "high" := 3200%Q; "max" := 4000%Q]} |} ] |}
].

(** A stored state with one metric, and the same with a key that is not
    tracked. *)
Definition stored_state : state := {["biz_cash_pp" := Some 3100]}.
Definition stored_state_extra : state :=
  {["biz_cash_pp" := Some 3100; "untracked" := Some 1]}.

(** *** Display helpers *)

Definition COL1 : nat := 20.
Definition COL2 : nat := 18.

(** UTF-8 bytes of the form 10xxxxxx continue a character. *)
Definition is_continuation (c : ascii) : bool :=
  let n := nat_of_ascii c in ((128 <=? n) && (n <=? 191))%nat.

(** [len(s)]: the number of characters of UTF-8 text. *)
Fixpoint py_len (s : string) : nat :=
  match s with
  | EmptyString => 0
  | String c s' => ((if is_continuation c then 0 else 1) + py_len s')%nat
  end.

Fixpoint spaces (n : nat) : string :=
  match n with
  | O => EmptyString
  | S n' => String " " (spaces n')
  end.

(** [f'{s:<{width}}']: padded with spaces on the right, never cut. *)
Definition py_ljust (width : nat) (s : string) : string :=
  s +:+ spaces (width - py_len s).

(** [row(label, v1, v2)] *)
Definition row (label v1 v2 : string) : string :=
  py_ljust COL1 label +:+ py_ljust COL2 v1 +:+ v2.

(** [f'{z:02d}']: a zero in front of a single digit. *)
Definition py_fmt_02d (z : Z) : string :=
  if bool_decide (0 ≤ z < 10) then "0" +:+ py_str z else py_str z.

Definition fmt_duration (minutes : Z) : string :=
  if minutes =? 0 then "—"
  else py_str (minutes / 60) +:+ "h " +:+ py_fmt_02d (minutes mod 60) +:+ "m".

Definition is_digit (c : ascii) : bool :=
  let n := nat_of_ascii c in ((48 <=? n) && (n <=? 57))%nat.

(** The group of the first match of [(\d+)] followed by [stop], as
    [re.findall] lists it first: the leftmost maximal run of ASCII digits that
    [stop] follows; [run] is the run read so far. *)
Fixpoint first_digits_before (stop : ascii) (s run : string) : option string :=
  match s with
  | EmptyString => None
  | String c s' =>
      if is_digit c then first_digits_before stop s' (run +:+ String c EmptyString)
      else if Ascii.eqb c stop && nonempty run then Some run
      else first_digits_before stop s' EmptyString
  end.

(** [int(digits)] for a string of ASCII digits. *)
Definition py_int_digits (digits : string) : Z :=
  match NilEmpty.uint_of_string digits with
  | Some d => Z.of_uint d
  | None => 0
  end.

Definition _total_minutes (iso_duration : string) : Z :=
  if negb (nonempty iso_duration) then 0
  else
    let h := match first_digits_before "H" iso_duration EmptyString with
             | Some m0 => py_int_digits m0
             | None => 0
             end in
    let mins := match first_digits_before "M" iso_duration EmptyString with
                | Some m0 => py_int_digits m0
                | None => 0
                end in
    h * 60 + mins.

(** *** Notifications *)

(** The settings read from the environment. *)
Record NotifyConfig := {
  NOTIFY_VIA : string;
  SLACK_WEBHOOK_URL : string;
  TWILIO_ACCOUNT_SID : string;
  TWILIO_AUTH_TOKEN : string;
  TWILIO_FROM_WHATSAPP : string;
  TWILIO_TO_WHATSAPP : string;
}.

(** [range(0, stop, step)] for a positive step. *)
Definition py_range (stop step : nat) : list nat :=
  (λ k, k * step)%nat <$> seq 0 ((stop + step - 1) / step)%nat.

(** [l[i:j]] for [0 ≤ i ≤ j]. *)
Definition py_slice {A} (l : list A) (i j : nat) : list A :=
  take (j - i) (drop i l).

Section Notify.
(** The message is a Python [str], a sequence of characters of some type
    [C]: slices count characters, not bytes. *)
Context {C : Type}.

(** The HTTP requests that are posted; their responses are only printed. *)
Inductive request :=
| SlackPost (url : string) (text : list C)
| TwilioPost (url : string) (auth : string * string) (from to : string) (body : list C).

(** [[message[i:i+1500] for i in range(0, len(message), 1500)]] *)
Definition message_chunks (message : list C) : list (list C) :=
  (λ i, py_slice message i (i + 1500)) <$> py_range (length message) 1500.

(** The requests of [send_slack], in order. *)
Definition send_slack (cfg : NotifyConfig) (message : list C) : list request :=
  if negb (nonempty (SLACK_WEBHOOK_URL cfg)) then []
  else [SlackPost (SLACK_WEBHOOK_URL cfg) message].

(** The requests of [send_whatsapp], in order. *)
Definition send_whatsapp (cfg : NotifyConfig) (message : list C) : list request :=
  if negb (nonempty (TWILIO_ACCOUNT_SID cfg) && nonempty (TWILIO_AUTH_TOKEN cfg)
           && nonempty (TWILIO_FROM_WHATSAPP cfg) && nonempty (TWILIO_TO_WHATSAPP cfg))
  then []
  else
    let url := "https://api.twilio.com/2010-04-01/Accounts/"
               +:+ TWILIO_ACCOUNT_SID cfg +:+ "/Messages.json" in
    (λ chunk, TwilioPost url (TWILIO_ACCOUNT_SID cfg, TWILIO_AUTH_TOKEN cfg)
                (TWILIO_FROM_WHATSAPP cfg) (TWILIO_TO_WHATSAPP cfg) chunk)
    <$> message_chunks message.

Definition notify (cfg : NotifyConfig) (message : list C) : list request :=
  if String.eqb (NOTIFY_VIA cfg) "whatsapp" then send_whatsapp cfg message
  else send_slack cfg message.

(** What a request carries of the message. *)
Definition request_text (r : request) : list C :=
  match r with
  | SlackPost _ text => text
  | TwilioPost _ _ _ _ body => body
  end.
End Notify.

(** Settings with the Twilio account filled in and no Slack webhook. *)
Definition sample_config : NotifyConfig := {|
  NOTIFY_VIA := "whatsapp";
  SLACK_WEBHOOK_URL := "";
  TWILIO_ACCOUNT_SID := "AC0123";
  TWILIO_AUTH_TOKEN := "secret";
  TWILIO_FROM_WHATSAPP := "whatsapp:+14155238886";
  TWILIO_TO_WHATSAPP := "whatsapp:+61400000000";
|}.

(** *** Amadeus token cache *)

(** The [_amadeus_cache] dict: each of its two keys may be missing. *)
Record TokenCache := {
  cached_token : option string;
  cached_expiry : option Q;
}.

(** The outcome of the token request: it fails (the post or
    [raise_for_status] raises), or it has a JSON body in which each of the
    two fields may be missing. *)
Inductive TokenResponse :=
| TokenFailed
| TokenBody (access_token : option string) (expires_in : option Q).

(** The request and the two writes to the cache; a missing field raises
    [KeyError] at its own assignment, after the writes before it. *)
Definition token_refresh (now : Q) (cache : TokenCache) (resp : TokenResponse)
    : option string * TokenCache :=
  match resp with
  | TokenFailed => (None, cache)
  | TokenBody None _ => (None, cache)
  | TokenBody (Some access_token) None =>
      (None, {| cached_token := Some access_token;
                cached_expiry := cached_expiry cache |})
  | TokenBody (Some access_token) (Some expires_in) =>
      (Some access_token,
       {| cached_token := Some access_token;
          cached_expiry := Some (now + expires_in)%Q |})
  end.

(** [get_amadeus_token] at the time [now], with the cache passed in and
    out; [None] stands for a raised exception. *)
Definition get_amadeus_token (now : Q) (cache : TokenCache) (resp : TokenResponse)
    : option string * TokenCache :=
  match cached_token cache with
  | Some token =>
      if nonempty token && Qltb now (default 0%Q (cached_expiry cache) - 60)%Q
      then (Some token, cache)
      else token_refresh now cache resp
  | None => token_refresh now cache resp
  end.

(** * Properties *)

(** ** Python built-ins *)

Example py_fmt_comma_ex :
  py_fmt_comma 1234567 = "1,234,567" ∧ py_fmt_comma (-1000) = "-1,000"
  ∧ py_fmt_comma 999 = "999" ∧ py_fmt_comma 0 = "0".
Proof. repeat split; reflexivity. Qed.

Example py_round_ex :
  py_round (5 # 2) = 2 ∧ py_round (7 # 2) = 4 ∧ py_round (-5 # 2) = -2
  ∧ py_round (14 # 5) = 3 ∧ py_int (-7 # 2) = -3.
Proof. repeat split; reflexivity. Qed.

Example py_strings_ex :
  (py_strip <$> py_split "," " QR, EK ,,") = ["QR"; "EK"; ""; ""]
  ∧ py_lower "Velocity" = "velocity"
  ∧ py_contains "cash" "biz_cash_pp" = true
  ∧ py_contains "pts" "biz_cash_pp" = false
  ∧ carrier_names ["QR"; "XX"] = "Qatar Airways, XX".
Proof. repeat split; reflexivity. Qed.

(** ** Points booster cost *)

Lemma BOOSTER_TIERS_eq :
  BOOSTER_TIERS =
  [1000; 1500; 2000; 2500; 3000; 3500; 4000; 4500; 5000; 6000; 7000; 8000;
   9000; 10000; 11000; 12000; 13000; 14000; 15000; 16000; 17000; 18000;
   19000; 20000; 21000; 22000; 23000; 24000; 25000; 26000; 27000; 28000;
   29000; 30000; 35000; 40000; 45000; 50000; 60000; 70000; 80000; 90000;
   100000; 150000; 200000; 250000].
Proof. vm_compute. reflexivity. Qed.

(** Every tier of the sorted list is a key of the table, with a price that is
    not negative. *)
Lemma BOOSTER_TIERS_priced tier :
  tier ∈ BOOSTER_TIERS → ∃ price, table_price tier = Ok price ∧ 0 ≤ price.
Proof.
  intros Hin%list_elem_of_In.
  assert (Hall : forallb (λ t, match table_price t with
                               | Ok price => 0 <=? price
                               | Raise _ => false
                               end) BOOSTER_TIERS = true)
    by (vm_compute; reflexivity).
  rewrite forallb_forall in Hall. specialize (Hall _ Hin).
  destruct (table_price tier) as [price|]; [|discriminate].
  exists price. split; [reflexivity | lia].
Qed.

(** A chunk of one purchase is covered by a tier of the list: the default
    of [next] is not used. *)
Lemma next_tier_covers chunk :
  chunk ≤ 250000 → next_tier chunk ∈ BOOSTER_TIERS ∧ chunk ≤ next_tier chunk.
Proof.
  intros Hle. unfold next_tier.
  destruct (List.find _ BOOSTER_TIERS) as [t|] eqn:Hfind; simpl.
  - apply find_some in Hfind as [Hin Hge]. split; [by apply list_elem_of_In | lia].
  - exfalso. assert (Hlast : (chunk <=? 250000) = false).
    { apply (find_none _ _ Hfind 250000), list_elem_of_In.
      apply (bool_decide_unpack _). vm_compute. exact I. }
    lia.
Qed.

Lemma booster_loop_step remaining total_bought total_cost :
  booster_loop remaining total_bought total_cost =
  if decide (remaining > 0) then
    match table_price (next_tier (Z.min remaining 250000)) with
    | Ok price =>
        booster_loop (remaining - Z.min remaining 250000)
                     (total_bought + next_tier (Z.min remaining 250000))
                     (total_cost + price)
    | Raise e => Raise e
    end
  else Ok (total_bought, total_cost).
Proof.
  rewrite booster_loop_equation_1.
  destruct (decide (remaining > 0)); simpl; [|reflexivity].
  destruct (table_price _); reflexivity.
Qed.

(** The loop returns, having bought at least what remained and added a cost
    that is not negative. *)
Lemma booster_loop_bounds remaining total_bought total_cost :
  ∃ bought cost,
    booster_loop remaining total_bought total_cost = Ok (bought, cost)
    ∧ total_bought + Z.max remaining 0 ≤ bought
    ∧ total_cost ≤ cost.
Proof.
  remember (Z.to_nat remaining) as n eqn:Hn.
  revert remaining total_bought total_cost Hn.
  induction n as [n IH] using lt_wf_ind. intros remaining total_bought total_cost ->.
  rewrite booster_loop_step. destruct (decide (remaining > 0)) as [Hpos|Hneg].
  - destruct (next_tier_covers (Z.min remaining 250000)) as [Hin Hge]; [lia|].
    destruct (BOOSTER_TIERS_priced _ Hin) as (price & -> & Hprice).
    destruct (IH (Z.to_nat (remaining - Z.min remaining 250000))
                 ltac:(lia) (remaining - Z.min remaining 250000)
                 (total_bought + next_tier (Z.min remaining 250000))
                 (total_cost + price) eq_refl)
      as (bought & cost & -> & Hb & Hc).
    exists bought, cost. split; [reflexivity | lia].
  - exists total_bought, total_cost. split; [reflexivity | lia].
Qed.

(** C1. For every non-negative [points_needed], [booster_cost] returns a pair
    of points purchased, at least [points_needed], and a purchase price that
    is not negative; and [booster_cost 0] is [(0, 0)]. *)
Theorem booster_cost_covers (points_needed : Z) :
  0 ≤ points_needed →
  (∃ points_purchased purchase_price,
     booster_cost points_needed = Ok (points_purchased, purchase_price)
     ∧ points_needed ≤ points_purchased
     ∧ 0 ≤ purchase_price)
  ∧ booster_cost 0 = Ok (0, 0).
Proof.
  intros Hpos. split; [|reflexivity].
  destruct (booster_loop_bounds points_needed 0 0) as (bought & cost & Heq & Hb & Hc).
  exists bought, cost. split; [exact Heq | lia].
Qed.

Lemma booster_cost_covers_witness :
  (∃ points_purchased purchase_price,
     booster_cost 278000 = Ok (points_purchased, purchase_price)
     ∧ 278000 ≤ points_purchased
     ∧ 0 ≤ purchase_price)
  ∧ booster_cost 0 = Ok (0, 0).
Proof. apply (booster_cost_covers 278000). lia. Defined.

Lemma BOOSTER_TABLE_items :
  ∀ tier price, BOOSTER_TABLE !! tier = Some price →
  In (tier, price) (map_to_list BOOSTER_TABLE).
Proof. intros tier price H. by apply list_elem_of_In, elem_of_map_to_list. Qed.

(** C4. A requirement that is exactly a tier of the table is priced at that
    tier's own listed price and buys exactly that tier; 135,000 is not such a
    tier, and a requirement of 135,000 points is rounded up to the 150,000
    tier. *)
Theorem booster_cost_exact_at_tier (tier price : Z) :
  BOOSTER_TABLE !! tier = Some price →
  booster_cost tier = Ok (tier, price)
  ∧ tier ≠ 135000
  ∧ booster_cost 135000 = Ok (150000, 3510).
Proof.
  intros Hin%BOOSTER_TABLE_items.
  assert (Hall : forallb (λ '(t, p),
      match booster_cost t with
      | Ok (bought, cost) => (bought =? t) && (cost =? p) && negb (t =? 135000)
      | Raise _ => false
      end) (map_to_list BOOSTER_TABLE) = true) by (vm_compute; reflexivity).
  rewrite forallb_forall in Hall. specialize (Hall _ Hin). simpl in Hall.
  destruct (booster_cost tier) as [[bought cost]|]; [|discriminate].
  apply andb_prop in Hall as [[Hb Hc]%andb_prop Hne].
  apply Z.eqb_eq in Hb, Hc. apply negb_true_iff, Z.eqb_neq in Hne.
  subst. split; [reflexivity | split; [exact Hne | reflexivity]].
Qed.

Lemma booster_cost_exact_at_tier_witness :
  booster_cost 50000 = Ok (50000, 1172)
  ∧ 50000 ≠ 135000
  ∧ booster_cost 135000 = Ok (150000, 3510).
Proof. apply (booster_cost_exact_at_tier 50000 1172). reflexivity. Defined.

(** The claim of C4 at 135,000, as the spec words it: the table has a
    135,000 tier and the purchase is that tier at its listed price. *)
Lemma booster_cost_135000_not_a_tier :
  ¬ ∃ price, BOOSTER_TABLE !! 135000 = Some price
             ∧ booster_cost 135000 = Ok (135000, price).
Proof. intros (price & Hin & _). vm_compute in Hin. discriminate. Qed.

(** C5, amended. A negative [points_needed] skips the loop: the result is
    [(0, 0)], and nothing is raised. *)
Theorem booster_cost_negative (points_needed : Z) :
  points_needed < 0 → booster_cost points_needed = Ok (0, 0).
Proof.
  intros Hneg. unfold booster_cost. rewrite booster_loop_step.
  destruct (decide (points_needed > 0)); [lia | reflexivity].
Qed.

Lemma booster_cost_negative_witness : booster_cost (-1) = Ok (0, 0).
Proof. apply (booster_cost_negative (-1)). lia. Defined.

(** C5 as stated fails: at -1 no exception is raised. *)
Lemma booster_cost_negative_no_error :
  ¬ ∃ e, booster_cost (-1) = Raise e.
Proof. intros [e He]. vm_compute in He. discriminate. Qed.

(** ** Stable sort and selection *)

Section PySortFacts.
Context {A K : Type} (ltb : K → K → bool) (key : A → K).
Hypothesis ltb_trans :
  ∀ a b c, ltb a b = true → ltb b c = true → ltb a c = true.
Hypothesis ltb_negtrans :
  ∀ a b c, ltb a b = false → ltb b c = false → ltb a c = false.

Lemma sort_insert_perm x l : sort_insert ltb key x l ≡ₚ x :: l.
Proof.
  induction l as [|y l IH]; simpl; [done|].
  destruct (ltb (key y) (key x)); [|done].
  rewrite IH. apply Permutation_swap.
Qed.

Lemma sort_by_perm l : sort_by ltb key l ≡ₚ l.
Proof.
  induction l as [|x l IH]; simpl; [done|].
  rewrite sort_insert_perm. by rewrite IH.
Qed.

Lemma sort_insert_head x l :
  head (sort_insert ltb key x l) =
  match head l with
  | Some y => if ltb (key y) (key x) then Some y else Some x
  | None => Some x
  end.
Proof. destruct l as [|y l]; simpl; [done|]. by destruct (ltb _ _). Qed.

(** The head of the sorted list is the first element of the input with the
    least key. *)
Lemma sort_by_head l :
  match head (sort_by ltb key l) with
  | None => l = []
  | Some x =>
      ∃ before after,
        l = before ++ x :: after
        ∧ (∀ y, y ∈ before → ltb (key x) (key y) = true)
        ∧ (∀ y, y ∈ after → ltb (key y) (key x) = false)
  end.
Proof.
  induction l as [|a l IH]; [done|].
  change (sort_by ltb key (a :: l)) with (sort_insert ltb key a (sort_by ltb key l)).
  rewrite sort_insert_head.
  destruct (head (sort_by ltb key l)) as [h|].
  - destruct IH as (before & after & -> & Hbefore & Hafter).
    destruct (ltb (key h) (key a)) eqn:Hha.
    + exists (a :: before), after. split; [done|]. split; [|done].
      intros y [->|Hy]%elem_of_cons; auto.
    + exists [], (before ++ h :: after). split; [done|].
      split; [intros y Hy; by apply elem_of_nil in Hy|].
      intros y [Hy|[->|Hy]%elem_of_cons]%elem_of_app.
      * destruct (ltb (key y) (key a)) eqn:Hya; [|done].
        rewrite <- Hha. symmetry. eauto.
      * done.
      * eauto.
  - subst l. exists [], []. split; [done|].
    split; intros y Hy; by apply elem_of_nil in Hy.
Qed.
End PySortFacts.

Lemma filter_middle {A} (P : A → Prop) `{!∀ x, Decision (P x)} (l f1 f2 : list A) x :
  filter P l = f1 ++ x :: f2 →
  ∃ l1 l2, l = l1 ++ x :: l2 ∧ filter P l1 = f1 ∧ filter P l2 = f2.
Proof.
  revert f1. induction l as [|a l IH]; intros f1 Heq.
  - by destruct f1.
  - rewrite filter_cons in Heq. destruct (decide (P a)) as [Ha|Ha].
    + destruct f1 as [|b f1]; injection Heq as -> Heq.
      * exists [], l. by rewrite filter_nil.
      * destruct (IH _ Heq) as (l1 & l2 & -> & <- & <-).
        exists (b :: l1), l2. by rewrite filter_cons_True.
    + destruct (IH _ Heq) as (l1 & l2 & -> & <- & <-).
      exists (a :: l1), l2. by rewrite filter_cons_False.
Qed.

Section Selection.
Context {A K : Type} (ltb : K → K → bool) (key : A → K).
Hypothesis ltb_trans :
  ∀ a b c, ltb a b = true → ltb b c = true → ltb a c = true.
Hypothesis ltb_negtrans :
  ∀ a b c, ltb a b = false → ltb b c = false → ltb a c = false.

Let ltk (a b : K) : Prop := ltb a b = true.
Let lek (a b : K) : Prop := ltb b a = false.

(** Sorting the elements with [P] and taking the head selects the first
    cheapest of them. *)
Lemma sorted_filter_head (P : A → Prop) `{!∀ x, Decision (P x)} (pool : list A) :
  cheapest_if_any ltk lek key P pool (head (sort_by ltb key (filter P pool))).
Proof.
  pose proof (sort_by_head ltb key ltb_trans ltb_negtrans (filter P pool)) as Hhead.
  destruct (head (sort_by ltb key (filter P pool))) as [x|]; simpl.
  - destruct Hhead as (f1 & f2 & Heq & Hbefore & Hafter).
    assert (HPx : P x).
    { eapply (proj1 (list_elem_of_filter P pool x)).
      rewrite Heq. apply elem_of_app. right. apply elem_of_cons. by left. }
    apply filter_middle in Heq as (l1 & l2 & -> & <- & <-).
    exists l1, l2. split; [done|]. split; [done|].
    split; intros y Hy HPy; [apply Hbefore | apply Hafter];
      by apply list_elem_of_filter.
  - intros y Hy HPy.
    assert (Hin : y ∈ filter P pool) by by apply list_elem_of_filter.
    rewrite Hhead in Hin. by apply elem_of_nil in Hin.
Qed.

Lemma first_of_each_heads (qatar_results other_results : list A) :
  first_of_each qatar_results other_results =
  option_list (head qatar_results) ++ option_list (head other_results).
Proof. by destruct qatar_results, other_results. Qed.
End Selection.

Lemma cheapest_if_any_equiv {A K} (lt lt' le le' : K → K → Prop) (key : A → K)
    (P P' : A → Prop) (pool : list A) (o : option A) :
  (∀ a b, lt a b → lt' a b) →
  (∀ a b, le a b → le' a b) →
  (∀ y, y ∈ pool → (P y ↔ P' y)) →
  cheapest_if_any lt le key P pool o → cheapest_if_any lt' le' key P' pool o.
Proof.
  intros Hlt Hle HP. destruct o as [x|]; simpl.
  - intros (before & after & -> & HPx & Hbefore & Hafter).
    assert (Hin : ∀ y, y ∈ before ∨ y = x ∨ y ∈ after → y ∈ before ++ x :: after).
    { intros y Hy. rewrite elem_of_app, elem_of_cons. tauto. }
    exists before, after. split; [done|].
    split; [apply HP; auto|].
    split; intros y Hy HPy; [apply Hlt, Hbefore | apply Hle, Hafter];
      try done; apply HP; auto.
  - intros Hnone y Hy HPy. apply (Hnone y Hy). by apply HP.
Qed.

Lemma Qltb_lt a b : Qltb a b = true ↔ (a < b)%Q.
Proof.
  unfold Qltb. rewrite negb_true_iff, <- not_true_iff_false, Qle_bool_iff.
  split; [apply Qnot_le_lt | apply Qlt_not_le].
Qed.

Lemma Qltb_ge a b : Qltb a b = false ↔ (b <= a)%Q.
Proof. unfold Qltb. by rewrite negb_false_iff, Qle_bool_iff. Qed.

Lemma Qltb_trans a b c : Qltb a b = true → Qltb b c = true → Qltb a c = true.
Proof. rewrite !Qltb_lt. apply Qlt_trans. Qed.

Lemma Qltb_negtrans a b c : Qltb a b = false → Qltb b c = false → Qltb a c = false.
Proof. rewrite !Qltb_ge. intros H1 H2. by apply Qle_trans with b. Qed.

(** *** Cash fares *)

Lemma cash_record_ok cabin offer :
  has_segments offer → ∃ step, cash_record cabin offer = Ok step.
Proof.
  intros Hseg. unfold cash_record.
  destruct (itineraries offer) as [|it its] eqn:Hit; [by eexists|].
  specialize (Hseg it). rewrite Hit in Hseg. specialize (Hseg eq_refl).
  repeat case_match; try (eexists; reflexivity). congruence.
Qed.

Lemma cash_scan_pool cabin offers qatar_results other_results :
  Forall has_segments offers →
  cash_scan cabin offers qatar_results other_results =
  Ok (qatar_results ++ filter (λ r, Cash.is_qatar r = true) (cash_pool cabin offers),
      other_results ++ filter (λ r, Cash.is_qatar r = false) (cash_pool cabin offers)).
Proof.
  intros Hall. revert qatar_results other_results.
  induction Hall as [|offer offers Hseg _ IH]; intros q o; simpl.
  - by rewrite !app_nil_r.
  - unfold cash_pool. simpl.
    destruct (cash_record_ok cabin offer Hseg) as [step ->]. simpl.
    destruct step as [record|]; simpl; [|apply IH].
    rewrite !filter_cons.
    destruct (Cash.is_qatar record) eqn:Hq; rewrite IH;
      repeat case_decide; try congruence; by rewrite <- ?app_assoc.
Qed.

Lemma cash_pool_is_qatar cabin offers r :
  r ∈ cash_pool cabin offers →
  Cash.is_qatar r = true ↔ "QR" ∈ Cash.carrier_codes r.
Proof.
  unfold cash_pool. rewrite list_elem_of_omap. intros (offer & _ & Hrec).
  destruct (cash_record cabin offer) as [step|] eqn:Hstep; [|done]. subst step.
  unfold cash_record in Hstep. repeat case_match; simplify_eq/=.
  rewrite bool_decide_eq_true, sort_by_perm, elem_of_elements. done.
Qed.

Lemma search_cash_fares_selection cabin offers :
  Forall has_segments offers →
  ∃ result,
    search_cash_fares cabin offers = Ok result
    ∧ selection_of Qlt Qle Cash.price_total (λ r, "QR" ∈ Cash.carrier_codes r)
        (cash_pool cabin offers) result.
Proof.
  intros Hall. unfold search_cash_fares. rewrite cash_scan_pool by done. simpl.
  eexists. split; [reflexivity|].
  rewrite first_of_each_heads.
  eexists _, _. split; [reflexivity|].
  split.
  - eapply cheapest_if_any_equiv;
      [| | | apply (sorted_filter_head Qltb _ Qltb_trans Qltb_negtrans)].
    + intros a b. apply Qltb_lt.
    + intros a b. apply Qltb_ge.
    + intros y Hy. by apply cash_pool_is_qatar with cabin offers.
  - eapply cheapest_if_any_equiv;
      [| | | apply (sorted_filter_head Qltb _ Qltb_trans Qltb_negtrans)].
    + intros a b. apply Qltb_lt.
    + intros a b. apply Qltb_ge.
    + intros y Hy. simpl.
      rewrite <- (cash_pool_is_qatar cabin offers y Hy).
      by destruct (Cash.is_qatar y).
Qed.

(** *** Reward seats *)

Lemma seats_record_ok cabin item : ∃ step, seats_record cabin item = Ok step.
Proof.
  unfold seats_record. repeat case_match; eauto.
  all: match goal with |- context [booster_cost ?n] =>
    destruct (booster_loop_bounds n 0 0) as (b & c & Hbc & _)
  end.
  all: unfold booster_cost; rewrite Hbc; simpl; by eexists.
Qed.

Lemma seats_scan_pool cabin data qatar_results other_results :
  seats_scan cabin data qatar_results other_results =
  Ok (qatar_results ++ filter (λ r, Reward.is_qatar r = true) (seats_pool cabin data),
      other_results ++ filter (λ r, Reward.is_qatar r = false) (seats_pool cabin data)).
Proof.
  revert qatar_results other_results.
  induction data as [|item data IH]; intros q o; simpl.
  - by rewrite !app_nil_r.
  - unfold seats_pool. simpl.
    destruct (seats_record_ok cabin item) as [step ->]. simpl.
    destruct step as [record|]; simpl; [|apply IH].
    rewrite !filter_cons.
    destruct (Reward.is_qatar record) eqn:Hq; rewrite IH;
      repeat case_decide; try congruence; by rewrite <- ?app_assoc.
Qed.

Lemma seats_pool_is_qatar cabin data r :
  r ∈ seats_pool cabin data →
  Reward.is_qatar r = true ↔ "QR" ∈ Reward.carrier_codes r.
Proof.
  unfold seats_pool. rewrite list_elem_of_omap. intros (item & _ & Hrec).
  destruct (seats_record cabin item) as [step|] eqn:Hstep; [|done]. subst step.
  unfold seats_record in Hstep.
  repeat case_match; simplify_eq/=.
  all: destruct (booster_cost _) as [[b c]|]; simplify_eq/=.
  all: injection Hstep as <-; simpl; by rewrite bool_decide_eq_true.
Qed.

Lemma search_velocity_seats_selection cabin data :
  ∃ result,
    search_velocity_seats cabin data = Ok result
    ∧ selection_of Z.lt Z.le Reward.points_pp (λ r, "QR" ∈ Reward.carrier_codes r)
        (seats_pool cabin data) result.
Proof.
  unfold search_velocity_seats. rewrite seats_scan_pool. simpl.
  eexists. split; [reflexivity|].
  rewrite first_of_each_heads.
  eexists _, _. split; [reflexivity|].
  assert (Htrans : ∀ a b c, (a <? b) = true → (b <? c) = true → (a <? c) = true)
    by (intros; lia).
  assert (Hneg : ∀ a b c, (a <? b) = false → (b <? c) = false → (a <? c) = false)
    by (intros; lia).
  split.
  - eapply cheapest_if_any_equiv;
      [| | | apply (sorted_filter_head Z.ltb _ Htrans Hneg)].
    + intros a b. apply Z.ltb_lt.
    + intros a b. apply Z.ltb_ge.
    + intros y Hy. by apply seats_pool_is_qatar with cabin data.
  - eapply cheapest_if_any_equiv;
      [| | | apply (sorted_filter_head Z.ltb _ Htrans Hneg)].
    + intros a b. apply Z.ltb_lt.
    + intros a b. apply Z.ltb_ge.
    + intros y Hy. simpl.
      rewrite <- (seats_pool_is_qatar cabin data y Hy).
      by destruct (Reward.is_qatar y).
Qed.

(** *** Consequences of the selection *)

Section SelectionFacts.
Context {A K : Type} (lt le : K → K → Prop) (key : A → K) (preferred : A → Prop).
Context (pool result : list A).
Hypothesis Hsel : selection_of lt le key preferred pool result.

Lemma selection_at_most_two : (length result ≤ 2)%nat.
Proof.
  destruct Hsel as (bq & bo & -> & _). destruct bq, bo; simpl; lia.
Qed.

Lemma selection_empty : pool = [] → result = [].
Proof.
  intros ->. destruct Hsel as (bq & bo & -> & Hq & Ho).
  destruct bq as [x|]; [destruct Hq as (l1 & l2 & Heq & _); by destruct l1|].
  destruct bo as [x|]; [destruct Ho as (l1 & l2 & Heq & _); by destruct l1|].
  done.
Qed.

(** A pool without preferred offers: exactly one offer, the first cheapest
    of the whole pool. *)
Lemma selection_no_preferred :
  pool ≠ [] → (∀ y, y ∈ pool → ¬ preferred y) →
  ∃ x, result = [x] ∧ ¬ preferred x ∧ first_cheapest lt le key (λ _, True) pool x.
Proof.
  intros Hne Hnone. destruct Hsel as (bq & bo & -> & Hq & Ho).
  destruct bq as [x|].
  { destruct Hq as (l1 & l2 & -> & HP & _). exfalso.
    apply (Hnone x); [|done]. rewrite elem_of_app, elem_of_cons. auto. }
  destruct bo as [x|].
  - exists x. split; [done|].
    destruct Ho as (l1 & l2 & -> & HP & Hbefore & Hafter). split; [done|].
    exists l1, l2. split; [done|]. split; [done|].
    split; intros y Hy _; [apply Hbefore | apply Hafter]; try done;
      apply Hnone; rewrite elem_of_app, elem_of_cons; auto.
  - destruct pool as [|y l]; [done|]. exfalso.
    apply (Ho y); [by left|]. apply Hnone. by left.
Qed.
End SelectionFacts.

(** C2. The selector returns at most two offers: the cheapest offer whose
    carrier set includes QR, then the cheapest offer whose carrier set does
    not, each one only if the pool has such an offer.  Cash fares are ranked
    by total price and reward seats by points per person, equal keys by
    input order.  An empty pool gives an empty result, and a pool without a
    QR offer gives exactly one offer, the cheapest of the pool.  Nothing is
    raised on offers that have their segments. *)
Theorem selector_cheapest_of_each
    (cabin : string) (offers : list FlightOffer) (data : list SeatsItem) :
  Forall has_segments offers →
  (∃ cash,
     search_cash_fares cabin offers = Ok cash
     ∧ selection_of Qlt Qle Cash.price_total (λ r, "QR" ∈ Cash.carrier_codes r)
         (cash_pool cabin offers) cash
     ∧ (length cash ≤ 2)%nat
     ∧ (cash_pool cabin offers = [] → cash = [])
     ∧ (cash_pool cabin offers ≠ [] →
        (∀ r, r ∈ cash_pool cabin offers → "QR" ∉ Cash.carrier_codes r) →
        ∃ x, cash = [x]
             ∧ ("QR" ∉ Cash.carrier_codes x)
             ∧ first_cheapest Qlt Qle Cash.price_total (λ _, True)
                 (cash_pool cabin offers) x))
  ∧ (∃ seats,
       search_velocity_seats cabin data = Ok seats
       ∧ selection_of Z.lt Z.le Reward.points_pp (λ r, "QR" ∈ Reward.carrier_codes r)
           (seats_pool cabin data) seats
       ∧ (length seats ≤ 2)%nat
       ∧ (seats_pool cabin data = [] → seats = [])
       ∧ (seats_pool cabin data ≠ [] →
          (∀ r, r ∈ seats_pool cabin data → "QR" ∉ Reward.carrier_codes r) →
          ∃ x, seats = [x]
               ∧ ("QR" ∉ Reward.carrier_codes x)
               ∧ first_cheapest Z.lt Z.le Reward.points_pp (λ _, True)
                   (seats_pool cabin data) x)).
Proof.
  intros Hall. split.
  - destruct (search_cash_fares_selection cabin offers Hall) as (cash & Heq & Hsel).
    exists cash. split; [exact Heq|].
    split; [exact Hsel|].
    split; [by eapply selection_at_most_two|].
    split; [by eapply selection_empty|].
    by eapply selection_no_preferred.
  - destruct (search_velocity_seats_selection cabin data) as (seats & Heq & Hsel).
    exists seats. split; [exact Heq|].
    split; [exact Hsel|].
    split; [by eapply selection_at_most_two|].
    split; [by eapply selection_empty|].
    by eapply selection_no_preferred.
Qed.

Lemma sample_fares_have_segments : Forall has_segments [emirates_fare; qatar_fare].
Proof. repeat constructor; intros it [= <-]; discriminate. Qed.

Lemma selector_cheapest_of_each_witness :
  ∃ cash,
    search_cash_fares "BUSINESS" [emirates_fare; qatar_fare] = Ok cash
    ∧ selection_of Qlt Qle Cash.price_total (λ r, "QR" ∈ Cash.carrier_codes r)
        (cash_pool "BUSINESS" [emirates_fare; qatar_fare]) cash.
Proof.
  destruct (selector_cheapest_of_each "BUSINESS" [emirates_fare; qatar_fare] []
              sample_fares_have_segments) as [(cash & Heq & Hsel & _) _].
  by exists cash.
Defined.

Example search_cash_fares_ex :
  (map Cash.price_pp <$> search_cash_fares "BUSINESS" [emirates_fare; qatar_fare])
  = Ok [5600 / 2; 6200 / 2]%Q
  ∧ (map Cash.is_qatar <$> search_cash_fares "BUSINESS" [emirates_fare; qatar_fare])
    = Ok [true; false]
  ∧ search_cash_fares "BUSINESS" [] = Ok []
  ∧ search_cash_fares "BUSINESS"
      [{| itineraries := [sample_itinerary [] "" "—"]; grandTotal := 100 |}]
    = Raise IndexError.
Proof. repeat split; vm_compute; reflexivity. Qed.

(** ** Snapshot *)

Lemma selection_head {A K} (lt le : K → K → Prop) (key : A → K) (preferred : A → Prop)
    (pool result : list A) :
  selection_of lt le key preferred pool result →
  ∃ best_preferred best_other,
    cheapest_if_any lt le key preferred pool best_preferred
    ∧ cheapest_if_any lt le key (λ x, ¬ preferred x) pool best_other
    ∧ head result = from_option Some best_other best_preferred.
Proof.
  intros (bq & bo & -> & Hq & Ho). exists bq, bo.
  split; [done|]. split; [done|]. by destruct bq, bo.
Qed.

(** C3, amended. Each price and points entry of the snapshot is the
    projection of the first offer of its selection, and absent only when the
    selection is empty; each seats entry is the seat count of the first offer,
    and 0 when the selection is empty.  The first offer of a selector output
    is the cheapest preferred-carrier offer of the pool when there is one,
    and the cheapest other offer when there is none. *)
Theorem summarise_for_state_first_offer
    (cash_biz : list Cash.offer) (pts_biz : list Reward.offer)
    (cash_biz_mad_doh : list Cash.offer) (pts_biz_mad_doh : list Reward.offer)
    (cash_biz_doh_syd : list Cash.offer) (pts_biz_doh_syd : list Reward.offer)
    (cash_eco : list Cash.offer) (pts_eco : list Reward.offer) :
  (∀ key,
     (summarise_for_state cash_biz pts_biz cash_biz_mad_doh pts_biz_mad_doh
        cash_biz_doh_syd pts_biz_doh_syd cash_eco pts_eco) !! key =
     if decide (key = "biz_cash_pp") then
       Some ((λ o, py_round (Cash.price_pp o)) <$> head cash_biz)
     else if decide (key = "biz_pts_pp_through") then
       Some (Reward.points_pp <$> head pts_biz)
     else if decide (key = "biz_pts_pp_doh_syd") then
       Some (Reward.points_pp <$> head pts_biz_doh_syd)
     else if decide (key = "eco_cash_pp") then
       Some ((λ o, py_round (Cash.price_pp o)) <$> head cash_eco)
     else if decide (key = "eco_pts_pp") then
       Some (Reward.points_pp <$> head pts_eco)
     else if decide (key = "biz_seats_through") then
       Some (Some (from_option Reward.seats_avail 0 (head pts_biz)))
     else if decide (key = "biz_seats_doh_syd") then
       Some (Some (from_option Reward.seats_avail 0 (head pts_biz_doh_syd)))
     else None)
  ∧ (∀ cabin offers, Forall has_segments offers →
     ∃ cash best_preferred best_other,
       search_cash_fares cabin offers = Ok cash
       ∧ cheapest_if_any Qlt Qle Cash.price_total (λ r, "QR" ∈ Cash.carrier_codes r)
           (cash_pool cabin offers) best_preferred
       ∧ cheapest_if_any Qlt Qle Cash.price_total (λ r, "QR" ∉ Cash.carrier_codes r)
           (cash_pool cabin offers) best_other
       ∧ head cash = from_option Some best_other best_preferred)
  ∧ (∀ cabin data, ∃ seats best_preferred best_other,
       search_velocity_seats cabin data = Ok seats
       ∧ cheapest_if_any Z.lt Z.le Reward.points_pp (λ r, "QR" ∈ Reward.carrier_codes r)
           (seats_pool cabin data) best_preferred
       ∧ cheapest_if_any Z.lt Z.le Reward.points_pp (λ r, "QR" ∉ Reward.carrier_codes r)
           (seats_pool cabin data) best_other
       ∧ head seats = from_option Some best_other best_preferred).
Proof.
  split; [|split].
  - intros key. unfold summarise_for_state, cash_pp, pts_pp. simpl.
    repeat case_decide; simplify_map_eq; by repeat case_match.
  - intros cabin offers Hall.
    destruct (search_cash_fares_selection cabin offers Hall) as (cash & Heq & Hsel).
    exists cash. apply selection_head in Hsel as (bq & bo & Hq & Ho & Hhd).
    by exists bq, bo.
  - intros cabin data.
    destruct (search_velocity_seats_selection cabin data) as (seats & Heq & Hsel).
    exists seats. apply selection_head in Hsel as (bq & bo & Hq & Ho & Hhd).
    by exists bq, bo.
Qed.

(** C3 as stated fails on a selection without a preferred-carrier offer: the
    cash entry is the Emirates fare, and the seats entries are 0, where the
    spec has an absent entry. *)
Lemma summarise_for_state_not_preferred_only :
  ∃ cash_biz,
    search_cash_fares "BUSINESS" [emirates_fare] = Ok cash_biz
    ∧ ¬ (∀ key, py_get (summarise_for_state cash_biz [] [] [] [] [] [] []) key
                = py_get (preferred_snapshot cash_biz [] [] [] []) key)
    ∧ py_get (summarise_for_state cash_biz [] [] [] [] [] [] []) "biz_cash_pp"
      = Some 3100
    ∧ py_get (preferred_snapshot cash_biz [] [] [] []) "biz_cash_pp" = None
    ∧ py_get (summarise_for_state cash_biz [] [] [] [] [] [] []) "biz_seats_through"
      = Some 0
    ∧ py_get (preferred_snapshot cash_biz [] [] [] []) "biz_seats_through" = None.
Proof.
  eexists. split; [vm_compute; reflexivity|].
  split; [|repeat split; vm_compute; reflexivity].
  intros Hall. specialize (Hall "biz_cash_pp").
  vm_compute in Hall. discriminate.
Qed.

(** ** Change detection *)

Lemma diff_line_same key label v : diff_line key label v v = None.
Proof.
  destruct v as [z|]; simpl; [|done].
  rewrite bool_decide_eq_false_2; [done|]. intros H. by apply H.
Qed.

Lemma summarise_for_state_nonempty
    cash_biz pts_biz cash_biz_mad_doh pts_biz_mad_doh
    cash_biz_doh_syd pts_biz_doh_syd cash_eco pts_eco :
  summarise_for_state cash_biz pts_biz cash_biz_mad_doh pts_biz_mad_doh
    cash_biz_doh_syd pts_biz_doh_syd cash_eco pts_eco ≠ ∅.
Proof. unfold summarise_for_state. simpl. apply insert_non_empty. Qed.

(** C9. Against an absent previous state, [build_diff] returns the first-run
    line alone; on two identical snapshots it returns the no-changes line
    alone.  A snapshot has the tracked keys, so it is not the empty dict that
    stands for an absent state. *)
Theorem build_diff_sentinels (S : state) :
  build_diff S ∅ = [FIRST_RUN]
  ∧ (S ≠ ∅ → build_diff S S = [NO_CHANGES]).
Proof.
  split; [done|]. intros Hne. unfold build_diff.
  rewrite bool_decide_eq_false_2 by done.
  unfold labels. simpl. by rewrite !diff_line_same.
Qed.

Lemma build_diff_sentinels_witness :
  build_diff (summarise_for_state [] [] [] [] [] [] [] []) ∅ = [FIRST_RUN]
  ∧ build_diff (summarise_for_state [] [] [] [] [] [] [] [])
      (summarise_for_state [] [] [] [] [] [] [] []) = [NO_CHANGES].
Proof.
  split.
  - apply (build_diff_sentinels _).
  - apply (build_diff_sentinels (summarise_for_state [] [] [] [] [] [] [] [])).
    intros Hempty.
    apply (f_equal (λ S : state, S !! "biz_seats_through")) in Hempty.
    vm_compute in Hempty. discriminate.
Defined.

(** ** Price percentile *)

Lemma py_int_inject (z : Z) : py_int (inject_Z z) = z.
Proof. unfold py_int. simpl. apply Z.quot_1_r. Qed.

(** Truncation is monotone. *)
Lemma py_int_le (x y : Q) : (x <= y)%Q → py_int x ≤ py_int y.
Proof.
  destruct x as [a b], y as [c d]. unfold Qle, py_int. simpl. intros Hle.
  rewrite <- (Z.quot_mul_cancel_r a (Z.pos b) (Z.pos d)) by lia.
  rewrite <- (Z.quot_mul_cancel_r c (Z.pos d) (Z.pos b)) by lia.
  rewrite (Z.mul_comm (Z.pos d) (Z.pos b)).
  apply Z.quot_le_mono; lia.
Qed.

Lemma py_max_ge_1 (a : Q) : (1 <= py_max a 1)%Q.
Proof.
  unfold py_max. destruct (Qltb a 1) eqn:H; [lra|].
  by apply Qltb_ge in H.
Qed.

Lemma py_max_ge (a : Q) : (a <= py_max a 1)%Q.
Proof.
  unfold py_max. destruct (Qltb a 1) eqn:H; [|lra].
  apply Qltb_lt in H. lra.
Qed.




Lemma interpolate_value_bounds base price lo hi :
  (lo < price)%Q → (price <= hi)%Q →
  base ≤ py_int (inject_Z base + (price - lo) / py_max (hi - lo) 1 * 25)%Q ≤ base + 25.
Proof.
  intros Hlo Hhi.
  pose proof (py_max_ge_1 (hi - lo)) as H1.
  pose proof (py_max_ge (hi - lo)) as H2.
  set (d := py_max (hi - lo) 1) in *.
  assert (Hr0 : (0 <= (price - lo) / d)%Q).
  { apply Qle_shift_div_l; lra. }
  assert (Hr1 : ((price - lo) / d <= 1)%Q).
  { apply Qle_shift_div_r; lra. }
  split.
  - rewrite <- (py_int_inject base) at 1. apply py_int_le. lra.
  - rewrite <- (py_int_inject (base + 25)). apply py_int_le.
    rewrite inject_Z_plus. change (inject_Z 25) with 25%Q. lra.
Qed.



Lemma estimate_branch_bounds price mn low med hi mx c emoji :
  estimate_branch price mn low med hi mx c emoji →
  10 ≤ pct_value c ≤ 100.
Proof.
  destruct 1; simpl; try lia.
  - pose proof (interpolate_value_bounds 25 price low med ltac:(done) ltac:(done)).
    change (inject_Z 25) with 25%Q in *. lia.
  - pose proof (interpolate_value_bounds 50 price med hi ltac:(done) ltac:(done)).
    change (inject_Z 50) with 50%Q in *. lia.
  - pose proof (interpolate_value_bounds 75 price hi mx ltac:(done) ltac:(done)).
    change (inject_Z 75) with 75%Q in *. lia.
Qed.





Lemma sample_distribution_lookup :
  sample_distribution !! "min" = Some 2000%Q
  ∧ sample_distribution !! "low" = Some 2400%Q
  ∧ sample_distribution !! "median" = Some 2700%Q
  ∧ sample_distribution !! "high" = Some 3200%Q
  ∧ sample_distribution !! "max" = Some 4000%Q.
Proof. repeat split; vm_compute; reflexivity. Qed.



(** ** Price context in double precision *)

Lemma SFcompare_antisym (x y : spec_float) :
  SFcompare y x = CompOpp <$> SFcompare x y.
Proof.
  destruct x as [[]|[]| |[] mx ex], y as [[]|[]| |[] my ey]; try reflexivity; simpl;
    rewrite (Z.compare_antisym ex ey); destruct (ex ?= ey); simpl; try reflexivity;
    rewrite (Pos.compare_cont_antisym mx my Eq); simpl;
    by rewrite ?CompOpp_involutive.
Qed.

Lemma SFleb_not_ltb (x y : spec_float) : SFleb x y = true → SFltb y x = false.
Proof.
  unfold SFleb, SFltb. rewrite (SFcompare_antisym x y).
  by destruct (SFcompare x y) as [[]|].
Qed.

(** The guarded denominator is never a zero: it is 1 when the gap is below
    1, the zeros included, and the gap itself otherwise. *)
Lemma float_py_max_not_zero (gap : spec_float) :
  Float64.is_zero (Float64.py_max gap (Float64.of_int 1)) = false.
Proof.
  unfold Float64.py_max.
  destruct (SFltb gap (Float64.of_int 1)) eqn:Hlt; [reflexivity|].
  by destruct gap as [[]| | |].
Qed.

Lemma float_interpolate_eq (base : Z) (price lo up : spec_float) :
  Float64.interpolate base price lo up
  = Float64.py_int (Float64.of_int base
                    + (price - lo) / Float64.py_max (up - lo) (Float64.of_int 1)
                      * Float64.of_int 25)%f64.
Proof.
  unfold Float64.interpolate, Float64.py_div.
  by rewrite float_py_max_not_zero.
Qed.

Lemma float_py_int_errors (x : spec_float) (e : exn) :
  Float64.py_int x = Raise e → e = ValueError ∨ e = OverflowError.
Proof. destruct x; simpl; intros [= <-]; auto. Qed.

Lemma float_label_populated price (m : gmap string spec_float) mn low med hi mx :
  m !! "min" = Some mn → m !! "low" = Some low → m !! "median" = Some med →
  m !! "high" = Some hi → m !! "max" = Some mx →
  Float64.truthy med = true →
  Float64.price_percentile_label price (Some m)
  = (λ '(c, emoji), Float64.label_text c emoji price med)
    <$> Float64.estimate price mn low med hi mx.
Proof.
  intros Hmn Hlow Hmed Hhi Hmx Htrue.
  unfold Float64.price_percentile_label, Float64.has_median, Float64.py_getitem.
  rewrite bool_decide_eq_false_2 by (intros ->; by rewrite lookup_empty in Hmn).
  rewrite Hmn, Hlow, Hmed, Hhi, Hmx, Htrue. simpl.
  by destruct (Float64.estimate _ _ _ _ _ _) as [[c emoji]|].
Qed.

Lemma float_estimate_errors price mn low med hi mx e :
  Float64.estimate price mn low med hi mx = Raise e →
  (e = ValueError ∨ e = OverflowError)
  ∧ SFleb price mn = false ∧ SFleb price low = false
  ∧ (SFleb price med = true ∨ SFleb price hi = true ∨ SFleb price mx = true).
Proof.
  unfold Float64.estimate. rewrite !float_interpolate_eq.
  destruct (SFleb price mn); [done|].
  destruct (SFleb price low); [done|].
  destruct (SFleb price med).
  { destruct (Float64.py_int _) eqn:Hint; [done|]. simpl. intros [= <-].
    split; [by eapply float_py_int_errors|]. auto. }
  destruct (SFleb price hi).
  { destruct (Float64.py_int _) eqn:Hint; [done|]. simpl. intros [= <-].
    split; [by eapply float_py_int_errors|]. auto. }
  destruct (SFleb price mx); [|done].
  destruct (Float64.py_int _) eqn:Hint; [done|]. simpl. intros [= <-].
  split; [by eapply float_py_int_errors|]. auto.
Qed.

(** C7, amended. For a populated distribution with a non-zero median and a
    price for which the tests against [min] and [low] fail and the test
    against the median holds, the percentile is
    [int(25 + (price − low)/d · 25)], every operation rounded to a double,
    where the denominator [d] is [median − low] when that gap is at least 1
    and 1 whenever the gap is below 1.  The denominator is never a zero, so
    no division fails; the label is computed when the value under [int()]
    is finite, and the only failures are those of [int()] on a NaN or an
    infinity.  The same holds between median and high from 50, and between
    high and max from 75. *)
Theorem percentile_interpolation
    (m : gmap string spec_float) (mn low med hi mx price : spec_float) :
  m !! "min" = Some mn → m !! "low" = Some low → m !! "median" = Some med →
  m !! "high" = Some hi → m !! "max" = Some mx →
  Float64.truthy med = true →
  SFleb price mn = false → SFleb price low = false →
  (SFleb price med = true →
     Float64.price_percentile_label price (Some m) =
     (λ p, Float64.label_text (Approx p) "🟢" price med)
     <$> Float64.py_int
           (Float64.of_int 25
            + (price - low) / Float64.py_max (med - low) (Float64.of_int 1)
              * Float64.of_int 25)%f64)
  ∧ (SFleb price med = false → SFleb price hi = true →
     Float64.price_percentile_label price (Some m) =
     (λ p, Float64.label_text (Approx p) "🟡" price med)
     <$> Float64.py_int
           (Float64.of_int 50
            + (price - med) / Float64.py_max (hi - med) (Float64.of_int 1)
              * Float64.of_int 25)%f64)
  ∧ (SFleb price med = false → SFleb price hi = false → SFleb price mx = true →
     Float64.price_percentile_label price (Some m) =
     (λ p, Float64.label_text (Approx p) "🔴" price med)
     <$> Float64.py_int
           (Float64.of_int 75
            + (price - hi) / Float64.py_max (mx - hi) (Float64.of_int 1)
              * Float64.of_int 25)%f64)
  ∧ (∀ lo up : spec_float,
       Float64.is_zero (Float64.py_max (up - lo)%f64 (Float64.of_int 1)) = false
       ∧ (SFleb (Float64.of_int 1) (up - lo)%f64 = true →
          Float64.py_max (up - lo)%f64 (Float64.of_int 1) = (up - lo)%f64)
       ∧ (SFltb (up - lo)%f64 (Float64.of_int 1) = true →
          Float64.py_max (up - lo)%f64 (Float64.of_int 1) = Float64.of_int 1))
  ∧ (∀ e, Float64.price_percentile_label price (Some m) = Raise e →
       e = ValueError ∨ e = OverflowError).
Proof.
  intros Hmn Hlow Hmed Hhi Hmx Htrue Hgt_mn Hgt_low.
  rewrite (float_label_populated price m mn low med hi mx) by done.
  unfold Float64.estimate. rewrite Hgt_mn, Hgt_low, !float_interpolate_eq.
  split; [|split; [|split; [|split]]].
  - intros ->. by destruct (Float64.py_int _).
  - intros -> ->. by destruct (Float64.py_int _).
  - intros -> -> ->. by destruct (Float64.py_int _).
  - intros lo up. split; [apply float_py_max_not_zero|]. unfold Float64.py_max. split.
    + intros Hle. by rewrite (SFleb_not_ltb _ _ Hle).
    + by intros ->.
  - intros e.
    destruct (SFleb price med);
      [|destruct (SFleb price hi); [|destruct (SFleb price mx); [|done]]];
      (destruct (Float64.py_int _) eqn:Hint; [done|]); simpl; intros [= <-];
      by eapply float_py_int_errors.
Qed.

Lemma percentile_interpolation_witness :
  Float64.price_percentile_label (Float64.decimal 231589 100)
    (Some Float64.cents_distribution)
  = (λ p, Float64.label_text (Approx p) "🟢" (Float64.decimal 231589 100)
            (Float64.decimal 291589 100))
    <$> Float64.py_int
          (Float64.of_int 25
           + (Float64.decimal 231589 100 - Float64.decimal 191589 100)
             / Float64.py_max (Float64.decimal 291589 100 - Float64.decimal 191589 100)
                 (Float64.of_int 1)
             * Float64.of_int 25)%f64.
Proof.
  apply (percentile_interpolation Float64.cents_distribution
           (Float64.of_int 1500) (Float64.decimal 191589 100)
           (Float64.decimal 291589 100) (Float64.of_int 3500)
           (Float64.of_int 4000) (Float64.decimal 231589 100));
    reflexivity.
Defined.

(** C7 as stated fails in two ways.  On a gap below 1: with [low = 100]
    and [median = 100.5], the price 100.5 is placed at the 37th percentile,
    where the division by [median − low] gives the 50th.  And the result is
    not always defined: the points −1.7e308 and 1.7e308 are finite and in
    order, yet for the price 1e308 both differences overflow to infinity,
    their quotient is NaN and [int()] raises. *)
Lemma percentile_interpolation_not_as_stated :
  (SFltb (Float64.of_int 100) (Float64.decimal 201 2) = true
   ∧ SFleb (Float64.decimal 201 2) (Float64.decimal 201 2) = true
   ∧ SFeqb (Float64.decimal 201 2) (Float64.of_int 100) = false
   ∧ Float64.spec_interpolate 25 (Float64.decimal 201 2) (Float64.of_int 100)
       (Float64.decimal 201 2) = Ok 50
   ∧ Float64.price_percentile_label (Float64.decimal 201 2)
       (Some Float64.narrow_distribution)
     = Ok "~37th percentile · AUD $0 below median 🟢")
  ∧ (SFleb (Float64.of_int (-175 * 10 ^ 306)) (Float64.of_int (-17 * 10 ^ 307)) = true
     ∧ SFltb (Float64.of_int (-17 * 10 ^ 307)) (Float64.of_int (10 ^ 308)) = true
     ∧ SFleb (Float64.of_int (10 ^ 308)) (Float64.of_int (17 * 10 ^ 307)) = true
     ∧ SFleb (Float64.of_int (17 * 10 ^ 307)) (Float64.of_int (175 * 10 ^ 306)) = true
     ∧ SFleb (Float64.of_int (175 * 10 ^ 306)) (Float64.of_int (179 * 10 ^ 306)) = true
     ∧ Float64.py_sub (Float64.of_int (10 ^ 308)) (Float64.of_int (-17 * 10 ^ 307))
       = S754_infinity false
     ∧ Float64.price_percentile_label (Float64.of_int (10 ^ 308))
         (Some Float64.wide_distribution)
       = Raise ValueError).
Proof. split; repeat split; vm_compute; reflexivity. Qed.

(** The doubles nearest to 1915.89, 2915.89 and 2315.89: the rounded
    operations give 35.0 and the label says 35th, where exact arithmetic on
    the same three doubles stays below 35. *)
Example percentile_rounding_ex :
  Float64.price_percentile_label (Float64.decimal 231589 100)
    (Some Float64.cents_distribution)
  = Ok "~35th percentile · AUD $600 below median 🟢"
  ∧ price_percentile_label (5092695967300321 # 2199023255552)
      (Some (distribution 1500 (8426173330159043 # 4398046511104)
                          (6412109920631521 # 2199023255552) 3500 4000))
    = Ok "~34th percentile · AUD $600 below median 🟢"
  ∧ Float64.decimal 231589 100 = S754_finite false 5092695967300321 (-41)
  ∧ Float64.decimal 191589 100 = S754_finite false 8426173330159043 (-42)
  ∧ Float64.decimal 291589 100 = S754_finite false 6412109920631521 (-41).
Proof. repeat split; vm_compute; reflexivity. Qed.

(** NaN and the infinities pass through every step but [int()]. *)
Example percentile_special_values_ex :
  Float64.price_percentile_label S754_nan
    (Some (Float64.distribution (Float64.of_int 1) (Float64.of_int 2) (Float64.of_int 3)
             (Float64.of_int 4) (Float64.of_int 5)))
  = Ok ">95th percentile · AUD $nan below median 🔴"
  ∧ Float64.price_percentile_label (Float64.of_int (-17 * 10 ^ 307))
      (Some (Float64.distribution (Float64.of_int 0) (Float64.of_int 1)
               (Float64.of_int (17 * 10 ^ 307)) (Float64.of_int (175 * 10 ^ 306))
               (Float64.of_int (179 * 10 ^ 306))))
    = Ok "~10th percentile · AUD $inf below median 🟢"
  ∧ Float64.price_percentile_label (Float64.of_int 3)
      (Some (Float64.distribution (Float64.of_int 1) (Float64.of_int 2) S754_nan
               (Float64.of_int 4) (Float64.of_int 5)))
    = Raise ValueError
  ∧ Float64.price_percentile_label (Float64.decimal 5397 2)
      (Some (Float64.distribution (Float64.of_int 2000) (Float64.of_int 2400)
               (Float64.of_int 2700) (Float64.of_int 3200) (Float64.of_int 4000)))
    = Ok "~49th percentile · AUD $2 below median 🟢".
Proof. repeat split; vm_compute; reflexivity. Qed.

(** C8. With no distribution, or with one that has no median, the label is
    the fixed marker, whatever the price; nothing is raised. *)
Theorem price_percentile_label_absent (price : Q) (m : gmap string Q) :
  m !! "median" = None →
  price_percentile_label price None = Ok UNAVAILABLE
  ∧ price_percentile_label price (Some m) = Ok UNAVAILABLE.
Proof.
  intros Hmed. split; [done|].
  unfold price_percentile_label, has_median. rewrite Hmed. simpl.
  by rewrite orb_true_r.
Qed.

Lemma price_percentile_label_absent_witness :
  price_percentile_label 2800 None = Ok UNAVAILABLE
  ∧ price_percentile_label 2800 (Some {["min" := 2000%Q]}) = Ok UNAVAILABLE.
Proof. apply (price_percentile_label_absent 2800 {["min" := 2000%Q]}). reflexivity. Defined.

(** C10. A distribution that has all five points and a median equal to 0 is
    answered with the marker too: the median is tested for truth, and 0.0 is
    false. *)
Theorem price_percentile_label_zero_median
    (price : Q) (m : gmap string Q) (mn low med hi mx : Q) :
  m !! "min" = Some mn → m !! "low" = Some low → m !! "median" = Some med →
  m !! "high" = Some hi → m !! "max" = Some mx →
  (med == 0)%Q →
  price_percentile_label price (Some m) = Ok UNAVAILABLE.
Proof.
  intros _ _ Hmed _ _ Hz.
  unfold price_percentile_label, has_median, truthy. rewrite Hmed.
  rewrite (Qeq_eq_bool _ _ Hz). simpl. by rewrite orb_true_r.
Qed.

Lemma price_percentile_label_zero_median_witness :
  price_percentile_label 50 (Some (distribution 0 0 0 100 200)) = Ok UNAVAILABLE.
Proof.
  apply (price_percentile_label_zero_median 50 (distribution 0 0 0 100 200) 0 0 0 100 200);
    reflexivity.
Defined.

Example price_percentile_label_ex :
  price_percentile_label 2800 (Some sample_distribution)
  = Ok "~55th percentile · AUD $100 above median 🟡".
Proof. vm_compute. reflexivity. Qed.

(** * Further properties *)

(** ** Points booster: how purchases compose *)

(** The accumulators of the loop only add up. *)
Lemma booster_loop_shift remaining total_bought total_cost :
  ∃ bought cost,
    booster_loop remaining 0 0 = Ok (bought, cost)
    ∧ booster_loop remaining total_bought total_cost
      = Ok (total_bought + bought, total_cost + cost).
Proof.
  remember (Z.to_nat remaining) as n eqn:Hn.
  revert remaining total_bought total_cost Hn.
  induction n as [n IH] using lt_wf_ind. intros remaining total_bought total_cost ->.
  rewrite (booster_loop_step remaining 0 0).
  rewrite (booster_loop_step remaining total_bought total_cost).
  destruct (decide (remaining > 0)) as [Hpos|Hneg].
  - destruct (next_tier_covers (Z.min remaining 250000)) as [Hin Hge]; [lia|].
    destruct (BOOSTER_TIERS_priced _ Hin) as (price & -> & Hprice).
    set (tier := next_tier (Z.min remaining 250000)).
    set (rest := remaining - Z.min remaining 250000).
    destruct (IH (Z.to_nat rest) ltac:(lia) rest (0 + tier) (0 + price) eq_refl)
      as (b & c & Hzero & ->).
    destruct (IH (Z.to_nat rest) ltac:(lia) rest (total_bought + tier)
                 (total_cost + price) eq_refl) as (b' & c' & Hzero' & ->).
    rewrite Hzero in Hzero'. injection Hzero' as <- <-.
    eexists _, _. split; [reflexivity|]. f_equal. f_equal; lia.
  - exists 0, 0. split; [reflexivity|]. f_equal. f_equal; lia.
Qed.

Lemma booster_cost_unroll (points_needed : Z) :
  250000 < points_needed →
  booster_cost points_needed =
  ('(bought, cost) ← booster_cost (points_needed - 250000);
   mret (250000 + bought, 5850 + cost)).
Proof.
  intros Hbig. unfold booster_cost.
  rewrite (booster_loop_step points_needed 0 0).
  destruct (decide (points_needed > 0)); [|lia].
  replace (Z.min points_needed 250000) with 250000 by lia.
  change (table_price (next_tier 250000)) with (Ok (A:=Z) 5850).
  change (next_tier 250000) with 250000. simpl.
  destruct (booster_loop_shift (points_needed - 250000) 250000 5850)
    as (b & c & Hzero & Hshift).
  rewrite Hzero. exact Hshift.
Qed.

(** X1. A requirement above the cap of one purchase is the 250,000 tier,
    at 5,850, plus what the rest of the requirement costs. *)
Theorem booster_cost_above_cap (points_needed : Z) :
  250000 < points_needed →
  ∃ bought cost,
    booster_cost (points_needed - 250000) = Ok (bought, cost)
    ∧ booster_cost points_needed = Ok (250000 + bought, 5850 + cost).
Proof.
  intros Hbig. rewrite (booster_cost_unroll points_needed Hbig).
  destruct (booster_loop_bounds (points_needed - 250000) 0 0) as (b & c & Hrest & _).
  exists b, c. unfold booster_cost at 1 2. by rewrite Hrest.
Qed.

Lemma booster_cost_above_cap_witness :
  ∃ bought cost,
    booster_cost (300000 - 250000) = Ok (bought, cost)
    ∧ booster_cost 300000 = Ok (250000 + bought, 5850 + cost).
Proof. apply (booster_cost_above_cap 300000). lia. Defined.

(** The first element of an ascending list that reaches [n] is the least
    one that does. *)
Lemma find_first_least (l : list Z) (n t : Z) :
  StronglySorted Z.le l →
  List.find (λ x, n <=? x) l = Some t →
  ∀ t', t' ∈ l → n ≤ t' → t ≤ t'.
Proof.
  induction 1 as [|x l Hsorted IH Hall]; [done|]. simpl.
  destruct (n <=? x) eqn:Hx.
  - intros [= <-] t' [->|Hin]%elem_of_cons _; [lia|].
    rewrite List.Forall_forall in Hall. apply Hall. by apply list_elem_of_In.
  - intros Hfind t' [->|Hin]%elem_of_cons Hle; [lia|]. by apply IH.
Qed.

Lemma BOOSTER_TIERS_sorted : StronglySorted Z.le BOOSTER_TIERS.
Proof.
  rewrite BOOSTER_TIERS_eq.
  repeat (apply SSorted_cons; [|repeat (apply List.Forall_cons; [lia|]); apply List.Forall_nil]).
  apply SSorted_nil.
Qed.

Lemma BOOSTER_TIERS_keys tier :
  tier ∈ BOOSTER_TIERS ↔ is_Some (BOOSTER_TABLE !! tier).
Proof.
  Local Transparent BOOSTER_TIERS.
  unfold BOOSTER_TIERS. rewrite sort_by_perm.
  Local Opaque BOOSTER_TIERS.
  rewrite list_elem_of_fmap. split.
  - intros ([t p] & -> & Hin%elem_of_map_to_list). by exists p.
  - intros [p Hp]. exists (tier, p). split; [done|]. by apply elem_of_map_to_list.
Qed.

Lemma booster_cost_one_purchase (points_needed : Z) :
  0 < points_needed ≤ 250000 →
  booster_cost points_needed =
  (price ← table_price (next_tier points_needed); mret (next_tier points_needed, price)).
Proof.
  intros Hrange. unfold booster_cost. rewrite booster_loop_step.
  destruct (decide (points_needed > 0)); [|lia].
  replace (Z.min points_needed 250000) with points_needed by lia.
  destruct (table_price (next_tier points_needed)) as [price|]; [|done]. simpl.
  rewrite Z.sub_diag, booster_loop_step.
  destruct (decide (0 > 0)); [lia|done].
Qed.

(** X2. A requirement within one purchase buys the smallest tier of the
    table that covers it, at that tier's listed price. *)
Theorem booster_cost_smallest_tier (points_needed : Z) :
  0 < points_needed ≤ 250000 →
  ∃ tier price,
    booster_cost points_needed = Ok (tier, price)
    ∧ BOOSTER_TABLE !! tier = Some price
    ∧ points_needed ≤ tier
    ∧ ∀ tier', is_Some (BOOSTER_TABLE !! tier') → points_needed ≤ tier' → tier ≤ tier'.
Proof.
  intros Hrange. rewrite booster_cost_one_purchase by done.
  destruct (next_tier_covers points_needed) as [Hin Hge]; [lia|].
  exists (next_tier points_needed).
  pose proof Hin as [price Hprice]%BOOSTER_TIERS_keys.
  exists price. unfold table_price. rewrite Hprice. simpl.
  split; [done|]. split; [done|]. split; [done|].
  intros tier' Hkey%BOOSTER_TIERS_keys Hle.
  unfold next_tier in *.
  destruct (List.find _ BOOSTER_TIERS) as [t|] eqn:Hfind; simpl in *.
  - by eapply find_first_least; [apply BOOSTER_TIERS_sorted|..].
  - apply list_elem_of_In, (find_none _ _ Hfind) in Hin. lia.
Qed.

Lemma booster_cost_smallest_tier_witness :
  ∃ tier price,
    booster_cost 135000 = Ok (tier, price)
    ∧ BOOSTER_TABLE !! tier = Some price
    ∧ 135000 ≤ tier
    ∧ ∀ tier', is_Some (BOOSTER_TABLE !! tier') → 135000 ≤ tier' → tier ≤ tier'.
Proof. apply (booster_cost_smallest_tier 135000). lia. Defined.

Lemma next_tier_least chunk tier :
  chunk ≤ 250000 → tier ∈ BOOSTER_TIERS → chunk ≤ tier → next_tier chunk ≤ tier.
Proof.
  intros Hcap Hin Hle. unfold next_tier.
  destruct (List.find _ BOOSTER_TIERS) as [t|] eqn:Hfind; simpl.
  - by eapply find_first_least; [apply BOOSTER_TIERS_sorted|..].
  - apply list_elem_of_In, (find_none _ _ Hfind) in Hin. lia.
Qed.

Lemma BOOSTER_TIERS_in tier :
  bool_decide (tier ∈ BOOSTER_TIERS) = true → tier ∈ BOOSTER_TIERS.
Proof. apply bool_decide_eq_true_1. Qed.

(** Within one purchase the tier bought is less than 50,000 above the
    chunk. *)
Lemma next_tier_close chunk :
  0 < chunk ≤ 250000 → next_tier chunk < chunk + 50000.
Proof.
  intros Hrange.
  destruct (decide (chunk ≤ 50000));
    [pose proof (next_tier_least chunk 50000) as H
    |destruct (decide (chunk ≤ 100000));
      [pose proof (next_tier_least chunk 100000) as H
      |destruct (decide (chunk ≤ 150000));
        [pose proof (next_tier_least chunk 150000) as H
        |destruct (decide (chunk ≤ 200000));
          [pose proof (next_tier_least chunk 200000) as H
          |pose proof (next_tier_least chunk 250000) as H]]]];
    (assert (next_tier chunk ≤ _) by
       (apply H; [lia | apply BOOSTER_TIERS_in; vm_compute; reflexivity | lia]));
    lia.
Qed.

Lemma booster_cost_close (points_needed : Z) :
  0 < points_needed →
  ∃ bought cost,
    booster_cost points_needed = Ok (bought, cost)
    ∧ points_needed ≤ bought < points_needed + 50000.
Proof.
  remember (Z.to_nat points_needed) as k eqn:Hk. revert points_needed Hk.
  induction k as [k IH] using lt_wf_ind. intros n -> Hpos.
  destruct (decide (n ≤ 250000)) as [Hone|Hmany].
  - rewrite booster_cost_one_purchase by lia.
    destruct (next_tier_covers n) as [Hin Hge]; [lia|].
    destruct (BOOSTER_TIERS_priced _ Hin) as (price & -> & _). simpl.
    pose proof (next_tier_close n). eexists _, _. split; [reflexivity|]. lia.
  - rewrite booster_cost_unroll by lia.
    destruct (IH (Z.to_nat (n - 250000)) ltac:(lia) (n - 250000) eq_refl ltac:(lia))
      as (b & c & -> & Hb).
    simpl. eexists _, _. split; [reflexivity|]. lia.
Qed.

(** X3. The points bought exceed a positive requirement by less than
    50,000, however many purchases it takes. *)
Theorem booster_cost_overshoot (points_needed : Z) :
  0 < points_needed →
  ∃ bought cost,
    booster_cost points_needed = Ok (bought, cost)
    ∧ points_needed ≤ bought < points_needed + 50000.
Proof.
  intros Hpos.
  destruct (booster_cost_close points_needed Hpos) as (bought & cost & Heq & Hb).
  exists bought, cost. by rewrite Heq.
Qed.

Lemma booster_cost_overshoot_witness :
  ∃ bought cost,
    booster_cost 278000 = Ok (bought, cost) ∧ 278000 ≤ bought < 278000 + 50000.
Proof. apply (booster_cost_overshoot 278000). lia. Defined.

(** A dearer tier is never cheaper. *)
Lemma BOOSTER_TABLE_increasing tier tier' price price' :
  BOOSTER_TABLE !! tier = Some price → BOOSTER_TABLE !! tier' = Some price' →
  tier ≤ tier' → price ≤ price'.
Proof.
  intros Ht%BOOSTER_TABLE_items Ht'%BOOSTER_TABLE_items Hle.
  assert (Hall : forallb (λ '(t, p),
            forallb (λ '(t', p'), implb (t <=? t') (p <=? p'))
                    (map_to_list BOOSTER_TABLE))
            (map_to_list BOOSTER_TABLE) = true) by (vm_compute; reflexivity).
  rewrite forallb_forall in Hall. specialize (Hall _ Ht). simpl in Hall.
  rewrite forallb_forall in Hall. specialize (Hall _ Ht'). simpl in Hall.
  destruct (tier <=? tier') eqn:Hb; [simpl in Hall; lia | lia].
Qed.

Lemma booster_cost_one_purchase_value (points_needed : Z) :
  0 < points_needed ≤ 250000 →
  ∃ price,
    BOOSTER_TABLE !! next_tier points_needed = Some price
    ∧ booster_cost points_needed = Ok (next_tier points_needed, price)
    ∧ points_needed ≤ next_tier points_needed ≤ 250000
    ∧ 36 ≤ price ≤ 5850.
Proof.
  intros Hrange. rewrite booster_cost_one_purchase by done.
  destruct (next_tier_covers points_needed) as [Hin Hge]; [lia|].
  pose proof Hin as [price Hprice]%BOOSTER_TIERS_keys.
  exists price. unfold table_price. rewrite Hprice. simpl.
  assert (Hcap : next_tier points_needed ≤ 250000).
  { apply next_tier_least; [lia| |lia]. apply BOOSTER_TIERS_in. vm_compute. reflexivity. }
  assert (Hlow : 1000 ≤ next_tier points_needed).
  { revert Hin. rewrite BOOSTER_TIERS_eq.
    generalize (next_tier points_needed). intros t Ht.
    apply list_elem_of_In in Ht. simpl in Ht. intuition lia. }
  split; [done|]. split; [done|]. split; [lia|]. split.
  - apply (BOOSTER_TABLE_increasing 1000 (next_tier points_needed)); [|done|done].
    vm_compute. reflexivity.
  - apply (BOOSTER_TABLE_increasing (next_tier points_needed) 250000); [done| |done].
    vm_compute. reflexivity.
Qed.

Lemma booster_cost_nothing (points_needed : Z) :
  points_needed ≤ 0 → booster_cost points_needed = Ok (0, 0).
Proof.
  intros Hneg. unfold booster_cost. rewrite booster_loop_step.
  destruct (decide (points_needed > 0)); [lia | reflexivity].
Qed.

Lemma booster_cost_order (n m : Z) :
  n ≤ m →
  ∃ bought cost bought' cost',
    booster_cost n = Ok (bought, cost)
    ∧ booster_cost m = Ok (bought', cost')
    ∧ bought ≤ bought' ∧ cost ≤ cost'.
Proof.
  remember (Z.to_nat m) as k eqn:Hk. revert n m Hk.
  induction k as [k IH] using lt_wf_ind. intros n m -> Hle.
  destruct (decide (m ≤ 0)) as [Hm0|Hmpos].
  { rewrite !booster_cost_nothing by lia. by exists 0, 0, 0, 0. }
  destruct (decide (m ≤ 250000)) as [Hone|Hmany].
  - destruct (booster_cost_one_purchase_value m) as (p' & Hp' & -> & Hb' & Hc'); [lia|].
    destruct (decide (n ≤ 0)) as [Hn0|Hnpos].
    { rewrite booster_cost_nothing by lia. eexists _, _, _, _.
      repeat split; lia. }
    destruct (booster_cost_one_purchase_value n) as (p & Hp & -> & Hb & Hc); [lia|].
    assert (next_tier n ≤ next_tier m).
    { apply next_tier_least; [lia| |lia]. by apply BOOSTER_TIERS_keys. }
    eexists _, _, _, _. repeat split; [done|].
    by apply (BOOSTER_TABLE_increasing (next_tier n) (next_tier m)).
  - rewrite (booster_cost_unroll m) by lia.
    destruct (decide (n ≤ 250000)) as [Hnone|Hnmany].
    + destruct (booster_loop_bounds (m - 250000) 0 0) as (b' & c' & Hrest & Hb' & Hc').
      unfold booster_cost at 2. rewrite Hrest. simpl.
      destruct (decide (n ≤ 0)) as [Hn0|Hnpos].
      { rewrite booster_cost_nothing by lia. eexists _, _, _, _.
        repeat split; lia. }
      destruct (booster_cost_one_purchase_value n) as (p & Hp & -> & Hb & Hc); [lia|].
      eexists _, _, _, _. repeat split; lia.
    + rewrite (booster_cost_unroll n) by lia.
      destruct (IH (Z.to_nat (m - 250000)) ltac:(lia) (n - 250000) (m - 250000)
                   eq_refl ltac:(lia)) as (b & c & b' & c' & -> & -> & Hb & Hc).
      simpl. eexists _, _, _, _. repeat split; lia.
Qed.

(** X4. A larger requirement never buys fewer points and never costs
    less. *)
Theorem booster_cost_monotone (points_needed points_needed' : Z) :
  points_needed ≤ points_needed' →
  ∃ bought cost bought' cost',
    booster_cost points_needed = Ok (bought, cost)
    ∧ booster_cost points_needed' = Ok (bought', cost')
    ∧ bought ≤ bought' ∧ cost ≤ cost'.
Proof.
  intros Hle.
  destruct (booster_cost_order points_needed points_needed' Hle)
    as (b & c & b' & c' & H1 & H2 & Hb & Hc).
  exists b, c, b', c'. by rewrite H1, H2.
Qed.

Lemma booster_cost_monotone_witness :
  ∃ bought cost bought' cost',
    booster_cost 139000 = Ok (bought, cost)
    ∧ booster_cost 278000 = Ok (bought', cost')
    ∧ bought ≤ bought' ∧ cost ≤ cost'.
Proof. apply (booster_cost_monotone 139000 278000). lia. Defined.

(** X5. Nothing is bought, at no cost, exactly when nothing is needed: any
    positive requirement costs at least 36, the price of the smallest
    tier. *)
Theorem booster_cost_free_only_at_zero (points_needed : Z) :
  ∃ bought cost,
    booster_cost points_needed = Ok (bought, cost)
    ∧ (points_needed ≤ 0 → bought = 0 ∧ cost = 0)
    ∧ (0 < points_needed → 1000 ≤ bought ∧ 36 ≤ cost).
Proof.
  destruct (decide (points_needed ≤ 0)) as [Hneg|Hpos].
  - rewrite booster_cost_nothing by done. exists 0, 0.
    split; [done|]. split; [done|lia].
  - destruct (booster_cost_order 1 points_needed ltac:(lia))
      as (b & c & b' & c' & Hone & -> & Hb & Hc).
    vm_compute in Hone. injection Hone as <- <-.
    exists b', c'. split; [done|]. split; lia.
Qed.

(** ** Selection: order of the input and invariants of the records *)

Section SortedHead.
Context {A K : Type} (ltb : K → K → bool) (key : A → K).
Hypothesis ltb_irrefl : ∀ a, ltb a a = false.
Hypothesis ltb_trans :
  ∀ a b c, ltb a b = true → ltb b c = true → ltb a c = true.
Hypothesis ltb_negtrans :
  ∀ a b c, ltb a b = false → ltb b c = false → ltb a c = false.

(** The head of the sorted list is an element with a least key. *)
Lemma sort_by_head_least l x :
  head (sort_by ltb key l) = Some x →
  x ∈ l ∧ ∀ y, y ∈ l → ltb (key y) (key x) = false.
Proof.
  intros Hhead.
  pose proof (sort_by_head ltb key ltb_trans ltb_negtrans l) as Hspec.
  rewrite Hhead in Hspec. destruct Hspec as (l1 & l2 & -> & Hbefore & Hafter).
  split; [rewrite elem_of_app, elem_of_cons; auto|].
  intros y [Hy|[->|Hy]%elem_of_cons]%elem_of_app.
  - destruct (ltb (key y) (key x)) eqn:Hyx; [|done].
    rewrite <- (ltb_irrefl (key x)). symmetry. eauto.
  - apply ltb_irrefl.
  - by apply Hafter.
Qed.

Lemma sort_by_head_nil l : head (sort_by ltb key l) = None → l = [].
Proof.
  intros Hhead.
  pose proof (sort_by_head ltb key ltb_trans ltb_negtrans l) as Hspec.
  by rewrite Hhead in Hspec.
Qed.

(** With one element per key, the head does not depend on the order of the
    input. *)
Lemma sort_by_head_perm l l' :
  l ≡ₚ l' →
  (∀ a b, a ∈ l → b ∈ l →
          ltb (key a) (key b) = false → ltb (key b) (key a) = false → a = b) →
  head (sort_by ltb key l) = head (sort_by ltb key l').
Proof.
  intros Hperm Hinj.
  destruct (head (sort_by ltb key l)) as [x|] eqn:Hx,
           (head (sort_by ltb key l')) as [x'|] eqn:Hx'.
  - apply sort_by_head_least in Hx as [Hin Hmin], Hx' as [Hin' Hmin'].
    f_equal. apply Hinj; [done| by rewrite Hperm | |].
    + apply Hmin'. by rewrite <- Hperm.
    + apply Hmin. by rewrite Hperm.
  - apply sort_by_head_nil in Hx'. subst l'.
    apply Permutation_nil_r in Hperm. subst l. done.
  - apply sort_by_head_nil in Hx. subst l.
    apply Permutation_nil_l in Hperm. subst l'. done.
  - done.
Qed.
End SortedHead.

Lemma Qltb_irrefl a : Qltb a a = false.
Proof. apply Qltb_ge. apply Qle_refl. Qed.

Lemma has_segments_perm offers offers' :
  offers ≡ₚ offers' → Forall has_segments offers → Forall has_segments offers'.
Proof. by intros ->. Qed.

(** X6. Selection does not depend on the order of the input when no two
    candidates share a key: a permuted list of flight offers with distinct
    total prices, or of reward seats with distinct points prices, gives the
    same result. *)
Theorem selection_order_independent
    (cabin : string) (offers offers' : list FlightOffer) (data data' : list SeatsItem) :
  offers ≡ₚ offers' →
  data ≡ₚ data' →
  Forall has_segments offers →
  (∀ a b, a ∈ cash_pool cabin offers → b ∈ cash_pool cabin offers →
          (Cash.price_total a == Cash.price_total b)%Q → a = b) →
  (∀ a b, a ∈ seats_pool cabin data → b ∈ seats_pool cabin data →
          Reward.points_pp a = Reward.points_pp b → a = b) →
  search_cash_fares cabin offers' = search_cash_fares cabin offers
  ∧ search_velocity_seats cabin data' = search_velocity_seats cabin data.
Proof.
  intros Hoffers Hdata Hseg Hcash Hseats. split.
  - unfold search_cash_fares.
    rewrite !cash_scan_pool by (done || by eapply has_segments_perm). simpl.
    rewrite !first_of_each_heads. do 3 f_equal; symmetry;
      (apply (sort_by_head_perm Qltb _ Qltb_irrefl Qltb_trans Qltb_negtrans);
       [unfold cash_pool; by rewrite Hoffers|]);
      intros a b [_ Ha]%list_elem_of_filter [_ Hb]%list_elem_of_filter
             Hab%Qltb_ge Hba%Qltb_ge;
      (apply Hcash; [done..|]); by apply Qle_antisym.
  - unfold search_velocity_seats. rewrite !seats_scan_pool. simpl.
    rewrite !first_of_each_heads. do 3 f_equal; symmetry;
      (apply (sort_by_head_perm Z.ltb _ Z.ltb_irrefl);
       [intros; lia | intros; lia | unfold seats_pool; by rewrite Hdata|]);
      intros a b [_ Ha]%list_elem_of_filter [_ Hb]%list_elem_of_filter Hab Hba;
      (apply Hseats; [done..|]); lia.
Qed.

Lemma selection_order_independent_witness :
  search_cash_fares "business" [qatar_fare; emirates_fare]
  = search_cash_fares "business" [emirates_fare; qatar_fare]
  ∧ search_velocity_seats "business" [qatar_seat; emirates_seat]
    = search_velocity_seats "business" [emirates_seat; qatar_seat].
Proof.
  apply (selection_order_independent "business"
           [emirates_fare; qatar_fare] [qatar_fare; emirates_fare]
           [emirates_seat; qatar_seat] [qatar_seat; emirates_seat]).
  - apply perm_swap.
  - apply perm_swap.
  - repeat constructor; intros it [= <-]; discriminate.
  - intros a b Ha%list_elem_of_In Hb%list_elem_of_In Heq.
    vm_compute in Ha, Hb.
    destruct Ha as [<-|[<-|[]]], Hb as [<-|[<-|[]]];
      try reflexivity; vm_compute in Heq; discriminate.
  - intros a b Ha%list_elem_of_In Hb%list_elem_of_In Heq.
    vm_compute in Ha, Hb.
    destruct Ha as [<-|[<-|[]]], Hb as [<-|[<-|[]]];
      try reflexivity; vm_compute in Heq; discriminate.
Defined.

Lemma first_of_each_elem {A} (qatar_results other_results : list A) x :
  x ∈ first_of_each qatar_results other_results →
  x ∈ qatar_results ∨ x ∈ other_results.
Proof.
  rewrite first_of_each_heads, elem_of_app.
  destruct qatar_results as [|q ?], other_results as [|o ?]; simpl;
    rewrite ?elem_of_cons, ?elem_of_nil; tauto.
Qed.

Lemma cash_scan_ok cabin offers q o q' o' :
  cash_scan cabin offers q o = Ok (q', o') →
  q' = q ++ filter (λ r, Cash.is_qatar r = true) (cash_pool cabin offers)
  ∧ o' = o ++ filter (λ r, Cash.is_qatar r = false) (cash_pool cabin offers).
Proof.
  revert q o. induction offers as [|offer offers IH]; intros q o; simpl.
  - intros [= <- <-]. by rewrite !app_nil_r.
  - unfold cash_pool. simpl.
    destruct (cash_record cabin offer) as [[record|]|]; simpl; [| |done].
    + rewrite !filter_cons.
      destruct (Cash.is_qatar record) eqn:Hq; intros [-> ->]%IH;
        repeat case_decide; try congruence; by rewrite <- ?app_assoc.
    + apply IH.
Qed.

(** Every offer in the result is the record of an offer of the input. *)
Lemma search_cash_fares_from_pool cabin offers cash r :
  search_cash_fares cabin offers = Ok cash → r ∈ cash →
  ∃ offer, offer ∈ offers ∧ cash_record cabin offer = Ok (Some r).
Proof.
  unfold search_cash_fares.
  destruct (cash_scan cabin offers [] []) as [[q o]|] eqn:Hscan; [|done].
  apply cash_scan_ok in Hscan as [-> ->]. simpl. intros [= <-] Hin.
  assert (Hpool : r ∈ cash_pool cabin offers).
  { apply first_of_each_elem in Hin as [Hin|Hin];
      rewrite sort_by_perm in Hin; by apply list_elem_of_filter in Hin as [_ ?]. }
  unfold cash_pool in Hpool. apply list_elem_of_omap in Hpool as (offer & Hoffer & Hrec).
  exists offer. split; [done|].
  by destruct (cash_record cabin offer) as [step|]; simplify_eq/=.
Qed.

(** X7. Every cash offer that [search_cash_fares] returns comes from a
    flight offer of the input with at most one stop, flown only by tracked
    carriers; its carrier codes are those of the segments, its total price
    is the offer's, and its price per person is half of it. *)
Theorem search_cash_fares_invariants
    (cabin : string) (offers : list FlightOffer) (cash : list Cash.offer)
    (r : Cash.offer) :
  search_cash_fares cabin offers = Ok cash → r ∈ cash →
  ∃ offer it,
    offer ∈ offers
    ∧ head (itineraries offer) = Some it
    ∧ (0 < length (segment_codes it) ≤ MAX_STOPS + 1)%nat
    ∧ (∀ c, c ∈ Cash.carrier_codes r ↔ c ∈ segment_codes it)
    ∧ (∀ c, c ∈ Cash.carrier_codes r → c ∈ ALL_CARRIERS)
    ∧ NoDup (Cash.carrier_codes r)
    ∧ (Cash.is_qatar r = true ↔ "QR" ∈ Cash.carrier_codes r)
    ∧ Cash.price_total r = grandTotal offer
    ∧ (Cash.price_pp r == grandTotal offer / 2)%Q
    ∧ Cash.cabin r = py_lower cabin.
Proof.
  intros Hsearch Hin.
  destruct (search_cash_fares_from_pool _ _ _ _ Hsearch Hin) as (offer & Hoffer & Hrec).
  exists offer. unfold cash_record in Hrec.
  destruct (itineraries offer) as [|it its] eqn:Hit; [done|].
  exists it. split; [done|]. split; [done|]. cbv zeta in Hrec.
  assert (Hmem : ∀ c, c ∈ sort_by String.ltb id
                        (elements (list_to_set (C:=gset string) (segment_codes it)))
                      ↔ c ∈ segment_codes it).
  { intros c. by rewrite sort_by_perm, elem_of_elements, elem_of_list_to_set. }
  assert (Hset : ∀ c, c ∈ segment_codes it
                      → c ∈ list_to_set (C:=gset string) (segment_codes it))
    by (intros c; apply elem_of_list_to_set).
  remember (list_to_set (C:=gset string) (segment_codes it)) as carriers eqn:Hcarriers.
  destruct (MAX_STOPS + 1 <? length (segment_codes it))%nat eqn:Hstops; [done|].
  apply Nat.ltb_ge in Hstops.
  case_bool_decide as Hsub; [|done].
  destruct (segment_codes it) as [|c0 codes] eqn:Hcodes; [done|].
  injection Hrec as <-.
  cbn [Cash.carrier_codes Cash.is_qatar Cash.price_total Cash.price_pp Cash.cabin].
  split; [unfold MAX_STOPS in *; simpl in *; lia|]. split; [exact Hmem|]. split.
  { intros c Hc%Hmem%Hset%Hsub. by apply elem_of_list_to_set in Hc. }
  split; [rewrite sort_by_perm; apply NoDup_elements|].
  split; [by rewrite bool_decide_eq_true, sort_by_perm, elem_of_elements|].
  done.
Qed.

Lemma search_cash_fares_invariants_witness :
  ∃ cash r,
    search_cash_fares "BUSINESS" [emirates_fare; qatar_fare] = Ok cash
    ∧ r ∈ cash
    ∧ (∀ c, c ∈ Cash.carrier_codes r → c ∈ ALL_CARRIERS)
    ∧ (Cash.price_pp r == Cash.price_total r / 2)%Q.
Proof.
  destruct (search_cash_fares "BUSINESS" [emirates_fare; qatar_fare])
    as [[|r cash]|] eqn:Hsearch; try (vm_compute in Hsearch; discriminate).
  exists (r :: cash), r. split; [reflexivity|].
  assert (Hin : r ∈ r :: cash) by apply list_elem_of_here.
  destruct (search_cash_fares_invariants "BUSINESS" [emirates_fare; qatar_fare]
              (r :: cash) r Hsearch Hin)
    as (offer & it & _ & _ & _ & _ & Hall & _ & _ & Htotal & Hpp & _).
  split; [exact Hin|]. split; [exact Hall|]. by rewrite Htotal.
Defined.

Lemma seats_record_fields cabin item r :
  seats_record cabin item = Ok (Some r) →
  py_lower (Source item) = VELOCITY_PROGRAM
  ∧ (if String.eqb cabin "business" then JAvailable item else YAvailable item) = true
  ∧ Reward.points_pp r
    = (if String.eqb cabin "business" then JMileageCost item else YMileageCost item)
  ∧ Reward.seats_avail r
    = (if String.eqb cabin "business" then JRemainingSeats item
       else YRemainingSeats item)
  ∧ Reward.total_points r = Reward.points_pp r * 2
  ∧ Reward.taxes_total r = (Reward.taxes_pp r * 2)%Q
  ∧ booster_cost (Reward.total_points r) = Ok (Reward.pts_bought r, Reward.booster_aud r)
  ∧ Reward.booster_total r
    = (inject_Z (Reward.booster_aud r) + Reward.taxes_total r)%Q
  ∧ (∃ c, c ∈ Reward.carrier_codes r ∧ c ∈ ALL_CARRIERS)
  ∧ (Reward.is_qatar r = true ↔ "QR" ∈ Reward.carrier_codes r)
  ∧ Reward.cabin r = cabin.
Proof.
  unfold seats_record. cbv zeta.
  destruct (negb (String.eqb (py_lower (Source item)) VELOCITY_PROGRAM)) eqn:Hsrc;
    [done|].
  apply negb_false_iff, String.eqb_eq in Hsrc.
  destruct (negb (if String.eqb cabin "business" then JAvailable item
                  else YAvailable item)) eqn:Havail; [done|].
  apply negb_false_iff in Havail.
  destruct (negb (existsb _ _)) eqn:Hany; [done|].
  apply negb_false_iff, existsb_exists in Hany as (c & Hc%list_elem_of_In & Hall).
  apply bool_decide_eq_true in Hall.
  destruct (booster_cost _) as [[bought aud]|] eqn:Hcost; [|done]. simpl.
  intros [= <-]. simpl.
  split; [done|]. split; [done|]. split; [done|]. split; [done|].
  split; [done|]. split; [done|]. split; [exact Hcost|]. split; [done|].
  split; [by exists c|]. split; [by rewrite bool_decide_eq_true|done].
Qed.

Lemma search_velocity_seats_from_pool cabin data seats r :
  search_velocity_seats cabin data = Ok seats → r ∈ seats →
  ∃ item, item ∈ data ∧ seats_record cabin item = Ok (Some r).
Proof.
  unfold search_velocity_seats. rewrite seats_scan_pool. simpl. intros [= <-] Hin.
  assert (Hpool : r ∈ seats_pool cabin data).
  { apply first_of_each_elem in Hin as [Hin|Hin];
      rewrite sort_by_perm in Hin; by apply list_elem_of_filter in Hin as [_ ?]. }
  unfold seats_pool in Hpool. apply list_elem_of_omap in Hpool as (item & Hitem & Hrec).
  exists item. split; [done|].
  by destruct (seats_record cabin item) as [step|]; simplify_eq/=.
Qed.

Lemma seats_record_codes cabin item r :
  seats_record cabin item = Ok (Some r) →
  Reward.carrier_codes r
  = (py_strip <$> List.filter (λ c, nonempty (py_strip c)) (py_split "," (Carriers item)))
  ∧ Reward.flights r = FlightNumbers item.
Proof.
  unfold seats_record. cbv zeta.
  destruct (negb (String.eqb _ _)); [done|].
  destruct (negb (if String.eqb cabin "business" then _ else _)); [done|].
  destruct (negb (existsb _ _)); [done|].
  destruct (booster_cost _) as [[bought aud]|]; [|done]. simpl.
  by intros [= <-].
Qed.

(** X8. Every reward offer that [search_velocity_seats] returns comes from
    an item of the input that is sourced from the Velocity program and
    available in the cabin.  Its carrier codes are the pieces of the item's
    carrier list between commas, stripped of white space, the empty ones
    left out, and one of them is tracked.  Its points and seats are the
    item's, its total points are for two passengers, and its points purchase
    is what [booster_cost] gives for the total points. *)
Theorem search_velocity_seats_invariants
    (cabin : string) (data : list SeatsItem) (seats : list Reward.offer)
    (r : Reward.offer) :
  search_velocity_seats cabin data = Ok seats →
  r ∈ seats →
  ∃ item,
    item ∈ data
    ∧ py_lower (Source item) = VELOCITY_PROGRAM
    ∧ (if String.eqb cabin "business" then JAvailable item
       else YAvailable item) = true
    ∧ Reward.carrier_codes r
      = (py_strip <$> List.filter (λ c, nonempty (py_strip c))
                        (py_split "," (Carriers item)))
    ∧ (∃ c, c ∈ Reward.carrier_codes r ∧ c ∈ ALL_CARRIERS)
    ∧ (Reward.is_qatar r = true ↔ "QR" ∈ Reward.carrier_codes r)
    ∧ Reward.points_pp r
      = (if String.eqb cabin "business" then JMileageCost item
         else YMileageCost item)
    ∧ Reward.seats_avail r
      = (if String.eqb cabin "business" then JRemainingSeats item
         else YRemainingSeats item)
    ∧ Reward.total_points r = Reward.points_pp r * 2
    ∧ booster_cost (Reward.total_points r)
      = Ok (Reward.pts_bought r, Reward.booster_aud r)
    ∧ Reward.flights r = FlightNumbers item
    ∧ Reward.cabin r = cabin.
Proof.
  intros Hsearch Hin.
  destruct (search_velocity_seats_from_pool _ _ _ _ Hsearch Hin) as (item & Hitem & Hrec).
  exists item. split; [exact Hitem|].
  destruct (seats_record_codes _ _ _ Hrec) as [Hcodes Hflights].
  apply seats_record_fields in Hrec
    as (Hsrc & Havail & Hpts & Hseats & Htotal & _ & Hcost & _ & Hany & Hqr & Hcabin).
  split; [exact Hsrc|]. split; [exact Havail|]. split; [exact Hcodes|].
  split; [exact Hany|]. split; [exact Hqr|]. split; [exact Hpts|].
  split; [exact Hseats|]. split; [exact Htotal|]. split; [exact Hcost|].
  split; [exact Hflights|exact Hcabin].
Qed.

Lemma search_velocity_seats_invariants_witness :
  ∃ item,
    item ∈ [other_program_seat; emirates_seat; qatar_seat]
    ∧ py_lower (Source item) = VELOCITY_PROGRAM
    ∧ (if String.eqb "business" "business" then JAvailable item
       else YAvailable item) = true
    ∧ Reward.carrier_codes emirates_reward
      = (py_strip <$> List.filter (λ c, nonempty (py_strip c))
                        (py_split "," (Carriers item)))
    ∧ (∃ c, c ∈ Reward.carrier_codes emirates_reward ∧ c ∈ ALL_CARRIERS)
    ∧ (Reward.is_qatar emirates_reward = true ↔ "QR" ∈ Reward.carrier_codes emirates_reward)
    ∧ Reward.points_pp emirates_reward
      = (if String.eqb "business" "business" then JMileageCost item
         else YMileageCost item)
    ∧ Reward.seats_avail emirates_reward
      = (if String.eqb "business" "business" then JRemainingSeats item
         else YRemainingSeats item)
    ∧ Reward.total_points emirates_reward = Reward.points_pp emirates_reward * 2
    ∧ booster_cost (Reward.total_points emirates_reward)
      = Ok (Reward.pts_bought emirates_reward, Reward.booster_aud emirates_reward)
    ∧ Reward.flights emirates_reward = FlightNumbers item
    ∧ Reward.cabin emirates_reward = "business".
Proof.
  apply (search_velocity_seats_invariants "business"
           [other_program_seat; emirates_seat; qatar_seat]
           [qatar_reward; emirates_reward] emirates_reward).
  - vm_compute. reflexivity.
  - repeat constructor.
Defined.

Example search_velocity_seats_ex :
  (map (λ r, (Reward.total_points r, Reward.pts_bought r, Reward.booster_aud r))
   <$> search_velocity_seats "business" [qatar_seat])
  = Ok [(278000, 278000, 6593)].
Proof. vm_compute. reflexivity. Qed.

(** X24. The purchase shown with a reward offer covers its points: for an
    offer with a positive points price, the points bought are at least the
    total points for two passengers and less than 50,000 above them, and the
    purchase costs at least 36. *)
Theorem search_velocity_seats_purchase
    (cabin : string) (data : list SeatsItem) :
  ∃ seats,
    search_velocity_seats cabin data = Ok seats
    ∧ ∀ r, r ∈ seats → 0 < Reward.points_pp r →
        Reward.total_points r ≤ Reward.pts_bought r < Reward.total_points r + 50000
        ∧ 36 ≤ Reward.booster_aud r
        ∧ (inject_Z 36 + Reward.taxes_total r <= Reward.booster_total r)%Q.
Proof.
  destruct (search_velocity_seats_selection cabin data) as (seats & Hsearch & _).
  exists seats. split; [exact Hsearch|]. intros r Hin Hpos.
  destruct (search_velocity_seats_from_pool _ _ _ _ Hsearch Hin) as (item & _ & Hrec).
  apply seats_record_fields in Hrec
    as (_ & _ & _ & _ & Htotal & _ & Hcost & Hall & _).
  destruct (booster_cost_close (Reward.total_points r) ltac:(lia))
    as (b & c & Hcost' & Hb).
  destruct (booster_cost_order 1 (Reward.total_points r) ltac:(lia))
    as (b1 & c1 & b' & c' & Hone & Hcost'' & _ & Hc).
  vm_compute in Hone. injection Hone as <- <-.
  rewrite Hcost in Hcost', Hcost''.
  injection Hcost' as <- <-. injection Hcost'' as <- <-.
  split; [done|]. split; [done|].
  rewrite Hall. apply Qplus_le_l. rewrite <- Zle_Qle. done.
Qed.

(** ** Change detection: what the lines count and when there are none *)

Lemma diff_line_is_Some key label cur prev :
  is_Some (diff_line key label cur prev) ↔ cur ≠ prev.
Proof.
  unfold diff_line.
  destruct cur as [c|], prev as [p|]; simpl; try case_bool_decide;
    (split; [intros [line Hline]|intros Hne]); try done; by eexists.
Qed.

Lemma length_omap_filter {A B} (f : A → option B) (l : list A) :
  length (omap f l) = length (filter (λ x, is_Some (f x)) l).
Proof.
  induction l as [|x l IH]; [done|].
  change (omap f (x :: l))
    with (match f x with Some y => y :: omap f l | None => omap f l end).
  destruct (decide (is_Some (f x))) as [[y Hy]|Hnone].
  - rewrite filter_cons_True by by eexists. rewrite Hy. simpl. by f_equal.
  - rewrite filter_cons_False by done.
    destruct (f x) as [y|]; [destruct Hnone; by eexists|]. done.
Qed.

(** X9. Against a stored state, [build_diff] gives one line per tracked
    metric whose value differs, in the order of the metrics, and a single
    line when none differs: between one and seven lines in all. *)
Theorem build_diff_line_count (current previous : state) :
  previous ≠ ∅ →
  length (build_diff current previous)
  = Nat.max 1 (length (filter (λ kl, py_get current kl.1 ≠ py_get previous kl.1) labels))
  ∧ (1 ≤ length (build_diff current previous) ≤ 7)%nat.
Proof.
  intros Hne. unfold build_diff. rewrite bool_decide_eq_false_2 by done.
  set (f := λ '(key, label),
              diff_line key label (py_get current key) (py_get previous key)).
  assert (Hlen : length (omap f labels)
                 = length (filter (λ kl, py_get current kl.1 ≠ py_get previous kl.1)
                             labels)).
  { rewrite length_omap_filter. f_equal. apply list_filter_iff.
    intros [key label]. apply diff_line_is_Some. }
  assert (Hmax : (length (omap f labels) ≤ 7)%nat).
  { rewrite Hlen. etrans; [apply length_filter|]. done. }
  rewrite <- Hlen.
  destruct (omap f labels) as [|line lines]; simpl in *; lia.
Qed.

Lemma build_diff_line_count_witness :
  length (build_diff (summarise_for_state [] [] [] [] [] [] [] []) stored_state)
  = Nat.max 1 (length (filter
      (λ kl, py_get (summarise_for_state [] [] [] [] [] [] [] []) kl.1
             ≠ py_get stored_state kl.1) labels))
  ∧ (1 ≤ length (build_diff (summarise_for_state [] [] [] [] [] [] [] [])
                   stored_state) ≤ 7)%nat.
Proof.
  apply (build_diff_line_count (summarise_for_state [] [] [] [] [] [] [] [])
           stored_state).
  intros Hempty.
  apply (f_equal (λ S : state, S !! "biz_cash_pp")) in Hempty.
  vm_compute in Hempty. discriminate.
Defined.

(** A change line starts with its label, so it is not the no-changes
    line. *)
Lemma diff_line_not_sentinel key label cur prev line :
  (key, label) ∈ labels →
  diff_line key label cur prev = Some line → line ≠ NO_CHANGES.
Proof.
  intros Hin Hline.
  assert (Hprefix : ∃ rest, line = "   " +:+ label +:+ ": " +:+ rest).
  { unfold diff_line in Hline.
    destruct cur as [c|], prev as [p|]; simpl in Hline;
      try case_bool_decide; simplify_eq; by eexists. }
  destruct Hprefix as [rest ->].
  unfold labels in Hin. apply list_elem_of_In in Hin. simpl in Hin.
  destruct Hin as [[= <- <-]|[[= <- <-]|[[= <- <-]|[[= <- <-]|[[= <- <-]|
                  [[= <- <-]|[[= <- <-]|[]]]]]]]]; discriminate.
Qed.

Lemma omap_nil_iff {A B} (f : A → option B) (l : list A) :
  omap f l = [] ↔ ∀ x, x ∈ l → f x = None.
Proof.
  induction l as [|x l IH]; simpl.
  - split; [intros _ y Hy; by apply elem_of_nil in Hy | done].
  - destruct (f x) as [y|] eqn:Hfx.
    + split; [done|]. intros H. specialize (H x (list_elem_of_here _ _)). congruence.
    + rewrite IH. split.
      * intros H y [->|Hy]%elem_of_cons; auto.
      * intros H y Hy. apply H. by right.
Qed.

Lemma build_diff_no_changes_iff (current previous : state) :
  previous ≠ ∅ →
  build_diff current previous = [NO_CHANGES]
  ↔ ∀ key, key ∈ labels.*1 → py_get current key = py_get previous key.
Proof.
  intros Hne. unfold build_diff. rewrite bool_decide_eq_false_2 by done.
  set (f := λ '(key, label),
              diff_line key label (py_get current key) (py_get previous key)).
  split.
  - intros Hdiff key [[k label] [-> Hin]]%list_elem_of_fmap. simpl.
    destruct (omap f labels) as [|line lines] eqn:Homap.
    + pose proof (proj1 (omap_nil_iff f labels) Homap _ Hin) as Hnone. simpl in Hnone.
      destruct (decide (py_get current k = py_get previous k)) as [|Hdiffer]; [done|].
      apply (diff_line_is_Some k label) in Hdiffer.
      rewrite Hnone in Hdiffer. by destruct Hdiffer.
    + exfalso. injection Hdiff as -> ->.
      assert (Hmem : NO_CHANGES ∈ omap f labels) by (rewrite Homap; left).
      apply list_elem_of_omap in Hmem as ([k' label'] & Hin' & Hline).
      by eapply diff_line_not_sentinel.
  - intros Hsame.
    assert (Hnil : omap f labels = []).
    { apply omap_nil_iff. intros [k label] Hin. simpl.
      rewrite (Hsame k) by (apply list_elem_of_fmap; by exists (k, label)).
      apply diff_line_same. }
    by rewrite Hnil.
Qed.

(** X10. Against a stored state, the no-changes line is the whole answer
    exactly when every tracked metric has the value it had: a changed metric
    is never passed over, and keys that are not tracked are not looked
    at. *)
Theorem build_diff_no_changes (current previous : state) :
  previous ≠ ∅ →
  build_diff current previous = [NO_CHANGES]
  ↔ ∀ key, key ∈ labels.*1 → py_get current key = py_get previous key.
Proof. intros Hne. by apply build_diff_no_changes_iff. Qed.

Lemma build_diff_no_changes_witness :
  build_diff stored_state_extra stored_state = [NO_CHANGES]
  ↔ ∀ key, key ∈ labels.*1 → py_get stored_state_extra key = py_get stored_state key.
Proof.
  apply (build_diff_no_changes stored_state_extra stored_state).
  intros Hempty.
  apply (f_equal (λ S : state, S !! "biz_cash_pp")) in Hempty.
  vm_compute in Hempty. discriminate.
Defined.

Lemma summarise_for_state_tracked
    cash_biz pts_biz cash_biz_mad_doh pts_biz_mad_doh
    cash_biz_doh_syd pts_biz_doh_syd cash_eco pts_eco :
  tracked_keys (summarise_for_state cash_biz pts_biz cash_biz_mad_doh pts_biz_mad_doh
                  cash_biz_doh_syd pts_biz_doh_syd cash_eco pts_eco).
Proof.
  intros key. unfold summarise_for_state.
  by rewrite <- elem_of_dom, dom_list_to_map_L, elem_of_list_to_set.
Qed.

(** X11. Two snapshots are told apart: for state dicts with exactly the
    tracked keys, as [summarise_for_state] builds them, the diff is the
    no-changes line alone exactly when the two snapshots are equal. *)
Theorem build_diff_snapshots (S S' : state) :
  tracked_keys S → tracked_keys S' →
  build_diff S S' = [NO_CHANGES] ↔ S = S'.
Proof.
  intros HS HS'.
  assert (Hne : S' ≠ ∅).
  { intros ->. destruct (proj2 (HS' "biz_cash_pp")) as [v Hv]; [by left|].
    by rewrite lookup_empty in Hv. }
  rewrite (build_diff_no_changes_iff S S' Hne). split.
  - intros Hsame. apply map_eq. intros key.
    destruct (decide (key ∈ labels.*1)) as [Hin|Hout].
    + specialize (Hsame key Hin). unfold py_get in Hsame.
      destruct (proj2 (HS key) Hin) as [v Hv], (proj2 (HS' key) Hin) as [v' Hv'].
      rewrite Hv, Hv' in *. simpl in Hsame. by subst.
    + assert (H1 : S !! key = None)
        by (apply eq_None_not_Some; intros Hs; by apply HS in Hs).
      assert (H2 : S' !! key = None)
        by (apply eq_None_not_Some; intros Hs; by apply HS' in Hs).
      by rewrite H1, H2.
  - by intros ->.
Qed.

Lemma build_diff_snapshots_witness :
  build_diff (summarise_for_state [] [] [] [] [] [] [] [])
             (summarise_for_state [] [] [] [] [] [] [] []) = [NO_CHANGES]
  ↔ summarise_for_state [] [] [] [] [] [] [] []
    = summarise_for_state [] [] [] [] [] [] [] [].
Proof.
  apply (build_diff_snapshots (summarise_for_state [] [] [] [] [] [] [] [])
           (summarise_for_state [] [] [] [] [] [] [] []));
    apply summarise_for_state_tracked.
Defined.

(** ** Price analysis and its label *)

Lemma distribution_lookup mn low med hi mx :
  distribution mn low med hi mx !! "min" = Some mn
  ∧ distribution mn low med hi mx !! "low" = Some low
  ∧ distribution mn low med hi mx !! "median" = Some med
  ∧ distribution mn low med hi mx !! "high" = Some hi
  ∧ distribution mn low med hi mx !! "max" = Some mx.
Proof. unfold distribution. repeat split; by simplify_map_eq. Qed.

Lemma get_price_analysis_Some cabin data d :
  get_price_analysis cabin data = Some d →
  ∃ item m,
    item ∈ data ∧ m ∈ priceMetrics item
    ∧ py_upper (travelClass m) = py_upper cabin
    ∧ d = distribution (amount_or_zero m "min") (amount_or_zero m "low")
            (amount_or_zero m "medium") (amount_or_zero m "high")
            (amount_or_zero m "max").
Proof.
  induction data as [|item data IH]; simpl; [done|].
  destruct (List.find _ (priceMetrics item)) as [m|] eqn:Hfind.
  - intros [= <-]. apply find_some in Hfind as [Hin Hclass].
    exists item, m. split; [left|]. split; [by apply list_elem_of_In|].
    split; [by apply String.eqb_eq|done].
  - intros (item' & m & Hitem & Hrest)%IH. exists item', m. split; [by right|done].
Qed.

(** X12. On a dict that has the five points, as [get_price_analysis]
    builds it, the label fails in one place only: [int()] of an
    interpolated value that is a NaN or an infinity.  No key is missing and
    no division fails, whatever the price and the points are, NaN and the
    infinities included; with a zero median the marker is returned, and a
    price that is at most [min] or [low], or that no point bounds, is always
    labelled. *)
Theorem price_percentile_label_failures
    (price : spec_float) (m : gmap string spec_float) (mn low med hi mx : spec_float) :
  m !! "min" = Some mn → m !! "low" = Some low → m !! "median" = Some med →
  m !! "high" = Some hi → m !! "max" = Some mx →
  (Float64.truthy med = false →
     Float64.price_percentile_label price (Some m) = Ok UNAVAILABLE)
  ∧ (Float64.truthy med = true → SFleb price mn = true →
     Float64.price_percentile_label price (Some m)
     = Ok (Float64.label_text (Approx 10) "🟢" price med))
  ∧ (Float64.truthy med = true → SFleb price mn = false → SFleb price low = true →
     Float64.price_percentile_label price (Some m)
     = Ok (Float64.label_text (Approx 25) "🟢" price med))
  ∧ (Float64.truthy med = true →
     SFleb price mn = false → SFleb price low = false → SFleb price med = false →
     SFleb price hi = false → SFleb price mx = false →
     Float64.price_percentile_label price (Some m)
     = Ok (Float64.label_text (Above 95) "🔴" price med))
  ∧ (∀ e, Float64.price_percentile_label price (Some m) = Raise e →
       (e = ValueError ∨ e = OverflowError)
       ∧ SFleb price mn = false ∧ SFleb price low = false
       ∧ (SFleb price med = true ∨ SFleb price hi = true ∨ SFleb price mx = true)).
Proof.
  intros Hmn Hlow Hmed Hhi Hmx.
  split; [|split; [|split; [|split]]].
  - intros Hfalse.
    unfold Float64.price_percentile_label, Float64.has_median.
    rewrite Hmed, Hfalse. simpl. by rewrite orb_true_r.
  - intros Htrue H1.
    rewrite (float_label_populated price m mn low med hi mx) by done.
    unfold Float64.estimate. by rewrite H1.
  - intros Htrue H1 H2.
    rewrite (float_label_populated price m mn low med hi mx) by done.
    unfold Float64.estimate. by rewrite H1, H2.
  - intros Htrue H1 H2 H3 H4 H5.
    rewrite (float_label_populated price m mn low med hi mx) by done.
    unfold Float64.estimate. by rewrite H1, H2, H3, H4, H5.
  - intros e.
    destruct (Float64.truthy med) eqn:Htrue.
    + rewrite (float_label_populated price m mn low med hi mx) by done.
      destruct (Float64.estimate price mn low med hi mx) as [[c emoji]|e'] eqn:Hest;
        [done|].
      simpl. intros [= <-]. by eapply float_estimate_errors.
    + unfold Float64.price_percentile_label, Float64.has_median.
      rewrite Hmed, Htrue. simpl. by rewrite orb_true_r.
Qed.

Lemma price_percentile_label_failures_witness :
  (Float64.truthy (Float64.of_int (17 * 10 ^ 307)) = false → Float64.price_percentile_label (Float64.of_int (10 ^ 308)) (Some Float64.wide_distribution) = Ok UNAVAILABLE)
  ∧ (Float64.truthy (Float64.of_int (17 * 10 ^ 307)) = true →
     SFleb (Float64.of_int (10 ^ 308)) (Float64.of_int (-175 * 10 ^ 306)) = true →
     Float64.price_percentile_label (Float64.of_int (10 ^ 308)) (Some Float64.wide_distribution)
     = Ok (Float64.label_text (Approx 10) "🟢" (Float64.of_int (10 ^ 308)) (Float64.of_int (17 * 10 ^ 307))))
  ∧ (Float64.truthy (Float64.of_int (17 * 10 ^ 307)) = true →
     SFleb (Float64.of_int (10 ^ 308)) (Float64.of_int (-175 * 10 ^ 306)) = false →
     SFleb (Float64.of_int (10 ^ 308)) (Float64.of_int (-17 * 10 ^ 307)) = true →
     Float64.price_percentile_label (Float64.of_int (10 ^ 308)) (Some Float64.wide_distribution)
     = Ok (Float64.label_text (Approx 25) "🟢" (Float64.of_int (10 ^ 308)) (Float64.of_int (17 * 10 ^ 307))))
  ∧ (Float64.truthy (Float64.of_int (17 * 10 ^ 307)) = true →
     SFleb (Float64.of_int (10 ^ 308)) (Float64.of_int (-175 * 10 ^ 306)) = false →
     SFleb (Float64.of_int (10 ^ 308)) (Float64.of_int (-17 * 10 ^ 307)) = false →
     SFleb (Float64.of_int (10 ^ 308)) (Float64.of_int (17 * 10 ^ 307)) = false →
     SFleb (Float64.of_int (10 ^ 308)) (Float64.of_int (175 * 10 ^ 306)) = false →
     SFleb (Float64.of_int (10 ^ 308)) (Float64.of_int (179 * 10 ^ 306)) = false →
     Float64.price_percentile_label (Float64.of_int (10 ^ 308)) (Some Float64.wide_distribution)
     = Ok (Float64.label_text (Above 95) "🔴" (Float64.of_int (10 ^ 308)) (Float64.of_int (17 * 10 ^ 307))))
  ∧ (∀ e, Float64.price_percentile_label (Float64.of_int (10 ^ 308)) (Some Float64.wide_distribution) = Raise e →
       (e = ValueError ∨ e = OverflowError)
       ∧ SFleb (Float64.of_int (10 ^ 308)) (Float64.of_int (-175 * 10 ^ 306)) = false
       ∧ SFleb (Float64.of_int (10 ^ 308)) (Float64.of_int (-17 * 10 ^ 307)) = false
       ∧ (SFleb (Float64.of_int (10 ^ 308)) (Float64.of_int (17 * 10 ^ 307)) = true
          ∨ SFleb (Float64.of_int (10 ^ 308)) (Float64.of_int (175 * 10 ^ 306)) = true
          ∨ SFleb (Float64.of_int (10 ^ 308)) (Float64.of_int (179 * 10 ^ 306)) = true)).
Proof.
  apply (price_percentile_label_failures (Float64.of_int (10 ^ 308))
           Float64.wide_distribution
           (Float64.of_int (-175 * 10 ^ 306)) (Float64.of_int (-17 * 10 ^ 307))
           (Float64.of_int (17 * 10 ^ 307)) (Float64.of_int (175 * 10 ^ 306))
           (Float64.of_int (179 * 10 ^ 306)));
    reflexivity.
Defined.

(** X13. [get_price_analysis] answers with the first metric whose travel
    class is the cabin, letter case apart, and with nothing exactly when no
    metric of the response is of that class; the answer depends on the
    cabin only up to letter case. *)
Theorem get_price_analysis_first_match
    (cabin cabin' : string) (data : list PriceItem) :
  py_upper cabin = py_upper cabin' →
  get_price_analysis cabin' data = get_price_analysis cabin data
  ∧ (get_price_analysis cabin data = None
     ↔ ∀ item m, item ∈ data → m ∈ priceMetrics item →
         py_upper (travelClass m) ≠ py_upper cabin)
  ∧ (∀ before item after skipped m rest,
       data = before ++ item :: after →
       priceMetrics item = skipped ++ m :: rest →
       (∀ item' m', item' ∈ before → m' ∈ priceMetrics item' →
          py_upper (travelClass m') ≠ py_upper cabin) →
       (∀ m', m' ∈ skipped → py_upper (travelClass m') ≠ py_upper cabin) →
       py_upper (travelClass m) = py_upper cabin →
       get_price_analysis cabin data
       = Some (distribution (amount_or_zero m "min") (amount_or_zero m "low")
                 (amount_or_zero m "medium") (amount_or_zero m "high")
                 (amount_or_zero m "max"))).
Proof.
  intros Hcase. split; [|split].
  - induction data as [|item data IH]; simpl; [done|]. by rewrite Hcase, IH.
  - split.
    + induction data as [|item data IH]; simpl.
      { intros _ item m Hitem. by apply elem_of_nil in Hitem. }
      destruct (List.find _ (priceMetrics item)) as [m|] eqn:Hfind; [done|].
      intros Hnone item' m' [->|Hitem]%elem_of_cons Hm'.
      * apply list_elem_of_In in Hm'.
        apply (find_none _ _ Hfind) in Hm'. by apply String.eqb_neq in Hm'.
      * by apply (IH Hnone item').
    + intros Hnone.
      destruct (get_price_analysis cabin data) as [d|] eqn:Hd; [|done].
      apply get_price_analysis_Some in Hd as (item & m & Hitem & Hm & Hclass & _).
      by destruct (Hnone item m).
  - intros before item after skipped m rest -> Hitem Hbefore Hskipped Hclass.
    induction before as [|item0 before IH]; simpl.
    + rewrite Hitem.
      assert (Hfind : List.find
                (λ m0, String.eqb (py_upper (travelClass m0)) (py_upper cabin))
                (skipped ++ m :: rest) = Some m).
      { clear Hitem. induction skipped as [|m0 skipped IHs]; simpl.
        - by rewrite (proj2 (String.eqb_eq _ _) Hclass).
        - rewrite (proj2 (String.eqb_neq _ _) (Hskipped m0 (list_elem_of_here _ _))).
          apply IHs. intros m' Hm'. apply Hskipped. by right. }
      by rewrite Hfind.
    + destruct (List.find _ (priceMetrics item0)) as [m0|] eqn:Hfind.
      * apply find_some in Hfind as [Hin Hm0]. apply String.eqb_eq in Hm0.
        destruct (Hbefore item0 m0); [by left|by apply list_elem_of_In|done].
      * apply IH. intros item' m' Hitem'. apply Hbefore. by right.
Qed.

Lemma upper_lower_ascii c : upper_ascii (lower_ascii c) = upper_ascii c.
Proof. destruct c as [[] [] [] [] [] [] [] []]; reflexivity. Qed.

Lemma py_upper_lower s : py_upper (py_lower s) = py_upper s.
Proof. induction s as [|c s IH]; simpl; [done|]. by rewrite upper_lower_ascii, IH. Qed.

Lemma get_price_analysis_first_match_witness :
  get_price_analysis "business" sample_metrics
  = get_price_analysis "BUSINESS" sample_metrics
  ∧ get_price_analysis "BUSINESS" sample_metrics = Some sample_distribution.
Proof.
  split; [|vm_compute; reflexivity].
  apply (get_price_analysis_first_match "BUSINESS" "business" sample_metrics).
  reflexivity.
Defined.

(** X14. Without a [medium] amount in the metric that answers, the median
    reads as 0 and the label is the marker for every price, whatever the
    other four points are. *)
Theorem price_insight_without_medium
    (cabin : string) (item : PriceItem) (data : list PriceItem)
    (m : PriceMetric) (price : Q) :
  List.find (λ m0, String.eqb (py_upper (travelClass m0)) (py_upper cabin))
            (priceMetrics item) = Some m →
  amount m !! "medium" = None →
  price_percentile_label price (get_price_analysis cabin (item :: data))
  = Ok UNAVAILABLE.
Proof.
  intros Hfind Hmedium. simpl. rewrite Hfind.
  unfold amount_or_zero at 3. rewrite Hmedium. simpl.
  unfold price_percentile_label, has_median.
  destruct (distribution_lookup (amount_or_zero m "min") (amount_or_zero m "low") 0
              (amount_or_zero m "high") (amount_or_zero m "max"))
    as (_ & _ & -> & _ & _).
  simpl. by rewrite orb_true_r.
Qed.

(** A metric with four points and no [medium]. *)
Lemma price_insight_without_medium_witness :
  price_percentile_label 2800
    (get_price_analysis "BUSINESS"
       [{| priceMetrics :=
             [{| travelClass := "BUSINESS";
                 amount := {["min" := 2000%Q; "max" := 4000%Q]} |}] |}])
  = Ok UNAVAILABLE.
Proof.
  apply (price_insight_without_medium "BUSINESS" _ []
           {| travelClass := "BUSINESS";
              amount := {["min" := 2000%Q; "max" := 4000%Q]} |} 2800);
    reflexivity.
Defined.



(** ** Notifications *)

Section NotifyFacts.
Context {C : Type}.
Implicit Types message : list C.

(** The first [k] chunks of size [n] are the first [k * n] characters. *)
Lemma concat_slices message (n k : nat) :
  concat ((λ i, py_slice message i (i + n)) <$> ((λ j, j * n)%nat <$> seq 0 k))
  = take (k * n) message.
Proof.
  induction k as [|k IH]; [done|].
  rewrite seq_S, !fmap_app, concat_app, IH. simpl. rewrite app_nil_r.
  unfold py_slice. replace (k * n + n - k * n)%nat with n by lia.
  rewrite take_take_drop. f_equal. lia.
Qed.

Lemma message_chunks_count message :
  length (message_chunks message) = ((length message + 1499) / 1500)%nat.
Proof.
  unfold message_chunks, py_range. rewrite !length_fmap, length_seq.
  f_equal. lia.
Qed.

Lemma message_chunks_concat message :
  concat (message_chunks message) = message.
Proof.
  unfold message_chunks, py_range. rewrite concat_slices.
  apply take_ge.
  pose proof (Nat.div_mod_eq (length message + 1500 - 1) 1500).
  pose proof (Nat.mod_upper_bound (length message + 1500 - 1) 1500). lia.
Qed.

Lemma message_chunks_sizes message chunk :
  chunk ∈ message_chunks message → (1 ≤ length chunk ≤ 1500)%nat.
Proof.
  unfold message_chunks, py_range.
  intros (i & -> & (k & -> & Hk%elem_of_seq)%list_elem_of_fmap)%list_elem_of_fmap.
  unfold py_slice. rewrite length_take, length_drop.
  pose proof (Nat.div_mod_eq (length message + 1500 - 1) 1500).
  pose proof (Nat.mod_upper_bound (length message + 1500 - 1) 1500). lia.
Qed.

Lemma send_whatsapp_body (cfg : NotifyConfig) message :
  nonempty (TWILIO_ACCOUNT_SID cfg) && nonempty (TWILIO_AUTH_TOKEN cfg)
  && nonempty (TWILIO_FROM_WHATSAPP cfg) && nonempty (TWILIO_TO_WHATSAPP cfg) = true →
  concat (request_text <$> send_whatsapp cfg message) = message.
Proof.
  unfold send_whatsapp. intros ->. simpl.
  rewrite <- list_fmap_compose.
  rewrite (list_fmap_ext _ id (message_chunks message)) by done.
  rewrite list_fmap_id. apply message_chunks_concat.
Qed.

(** X16. [send_whatsapp] posts the message in pieces of at most 1,500
    characters, none of them empty: with the four Twilio settings present,
    the bodies of the requests, put together in order, are the message, and
    there are as many requests as 1,500-character pieces are needed; with a
    setting missing nothing is posted. *)
Theorem send_whatsapp_pieces (cfg : NotifyConfig) message :
  (nonempty (TWILIO_ACCOUNT_SID cfg) && nonempty (TWILIO_AUTH_TOKEN cfg)
   && nonempty (TWILIO_FROM_WHATSAPP cfg) && nonempty (TWILIO_TO_WHATSAPP cfg) = true →
   concat (request_text <$> send_whatsapp cfg message) = message
   ∧ length (send_whatsapp cfg message) = ((length message + 1499) / 1500)%nat
   ∧ ∀ r, r ∈ send_whatsapp cfg message →
       (1 ≤ length (request_text r) ≤ 1500)%nat
       ∧ ∃ url body, r = TwilioPost url (TWILIO_ACCOUNT_SID cfg, TWILIO_AUTH_TOKEN cfg)
                           (TWILIO_FROM_WHATSAPP cfg) (TWILIO_TO_WHATSAPP cfg) body)
  ∧ (nonempty (TWILIO_ACCOUNT_SID cfg) && nonempty (TWILIO_AUTH_TOKEN cfg)
     && nonempty (TWILIO_FROM_WHATSAPP cfg) && nonempty (TWILIO_TO_WHATSAPP cfg) = false →
     send_whatsapp cfg message = []).
Proof.
  unfold send_whatsapp. split; intros ->; simpl; [|done].
  split; [|split].
  - rewrite <- list_fmap_compose.
    rewrite (list_fmap_ext _ id (message_chunks message)) by done.
    rewrite list_fmap_id. apply message_chunks_concat.
  - rewrite length_fmap. apply message_chunks_count.
  - intros r (chunk & -> & Hchunk)%list_elem_of_fmap. simpl.
    split; [by apply (message_chunks_sizes message) | by eexists _, _].
Qed.

(** X17. [notify] uses one channel only: the WhatsApp pieces when
    [NOTIFY_VIA] is [whatsapp], and otherwise a single Slack post that
    carries the whole message.  Whatever it posts, put together, is the
    message or nothing. *)
Theorem notify_one_channel (cfg : NotifyConfig) message :
  (NOTIFY_VIA cfg = "whatsapp" → notify cfg message = send_whatsapp cfg message)
  ∧ (NOTIFY_VIA cfg ≠ "whatsapp" →
     notify cfg message
     = if nonempty (SLACK_WEBHOOK_URL cfg)
       then [SlackPost (SLACK_WEBHOOK_URL cfg) message] else [])
  ∧ (notify cfg message = []
     ∨ concat (request_text <$> notify cfg message) = message).
Proof.
  unfold notify. split; [|split].
  - intros ->. done.
  - intros Hvia%String.eqb_neq. rewrite Hvia. unfold send_slack.
    by destruct (nonempty (SLACK_WEBHOOK_URL cfg)).
  - destruct (String.eqb (NOTIFY_VIA cfg) "whatsapp").
    + destruct (nonempty (TWILIO_ACCOUNT_SID cfg) && nonempty (TWILIO_AUTH_TOKEN cfg)
                && nonempty (TWILIO_FROM_WHATSAPP cfg)
                && nonempty (TWILIO_TO_WHATSAPP cfg)) eqn:Hcfg.
      * right. by apply send_whatsapp_body.
      * left. unfold send_whatsapp. by rewrite Hcfg.
    + unfold send_slack. destruct (nonempty (SLACK_WEBHOOK_URL cfg)); simpl.
      * right. apply app_nil_r.
      * by left.
Qed.
End NotifyFacts.

Lemma send_whatsapp_pieces_witness :
  concat (request_text <$> send_whatsapp sample_config (replicate 3200 "x"%char))
  = replicate 3200 "x"%char
  ∧ length (send_whatsapp sample_config (replicate 3200 "x"%char))
    = ((length (replicate 3200 "x"%char) + 1499) / 1500)%nat
  ∧ ∀ r, r ∈ send_whatsapp sample_config (replicate 3200 "x"%char) →
      (1 ≤ length (request_text r) ≤ 1500)%nat
      ∧ ∃ url body,
          r = TwilioPost url (TWILIO_ACCOUNT_SID sample_config,
                              TWILIO_AUTH_TOKEN sample_config)
                (TWILIO_FROM_WHATSAPP sample_config)
                (TWILIO_TO_WHATSAPP sample_config) body.
Proof.
  apply (proj1 (send_whatsapp_pieces sample_config (replicate 3200 "x"%char))).
  reflexivity.
Defined.

Lemma notify_one_channel_witness :
  notify sample_config (replicate 3200 "x"%char)
  = send_whatsapp sample_config (replicate 3200 "x"%char).
Proof.
  apply (proj1 (notify_one_channel sample_config (replicate 3200 "x"%char))).
  reflexivity.
Defined.

Example send_whatsapp_ex :
  length <$> (request_text <$> send_whatsapp sample_config (replicate 3200 "x"%char))
  = [1500; 1500; 200]%nat
  ∧ send_whatsapp sample_config ([] : list ascii) = []
  ∧ send_slack sample_config (replicate 3200 "x"%char) = [].
Proof. repeat split; vm_compute; reflexivity. Qed.

(** ** Amadeus token cache *)

(** X18. A call that asks for a token, because the cache holds none, an
    empty one, or one within 60 seconds of its expiry or past it, stores the
    token it receives over whatever was there.  That token is then served
    from the cache, without a request, by every later call that comes more
    than 60 seconds before it expires, and the cache stays as the refresh
    left it.  A call made later than that asks again, and when that request
    fails it returns no token and leaves the cache alone. *)
Theorem get_amadeus_token_reuse
    (now later : Q) (cache : TokenCache) (token : string) (expires_in : Q)
    (resp : TokenResponse) :
  (∀ held, cached_token cache = Some held → nonempty held = true →
     (default 0 (cached_expiry cache) - 60 <= now)%Q) →
  nonempty token = true →
  (later < now + expires_in - 60)%Q →
  let '(first, cache') :=
    get_amadeus_token now cache (TokenBody (Some token) (Some expires_in)) in
  first = Some token
  ∧ cache' = {| cached_token := Some token;
                cached_expiry := Some (now + expires_in)%Q |}
  ∧ get_amadeus_token later cache' resp = (Some token, cache')
  ∧ ∀ expired, (now + expires_in - 60 <= expired)%Q →
      get_amadeus_token expired cache' TokenFailed = (None, cache').
Proof.
  intros Hstale Htoken Hlater.
  assert (Hfetch : get_amadeus_token now cache (TokenBody (Some token) (Some expires_in))
                   = (Some token, {| cached_token := Some token;
                                     cached_expiry := Some (now + expires_in)%Q |})).
  { unfold get_amadeus_token.
    destruct (cached_token cache) as [held|] eqn:Hheld; [|done].
    destruct (nonempty held) eqn:Hne; [|done]. simpl.
    specialize (Hstale held eq_refl Hne).
    by rewrite (proj2 (Qltb_ge _ _) Hstale). }
  rewrite Hfetch. split; [done|]. split; [done|].
  unfold get_amadeus_token. simpl. rewrite Htoken. simpl. split.
  - by rewrite (proj2 (Qltb_lt _ _) Hlater).
  - intros expired Hexpired. by rewrite (proj2 (Qltb_ge _ _) Hexpired).
Qed.

Lemma get_amadeus_token_reuse_witness :
  let '(first, cache') :=
    get_amadeus_token 1000%Q {| cached_token := Some "0ld"; cached_expiry := Some 1030%Q |}
      (TokenBody (Some "t0k3n") (Some 1799%Q)) in
  first = Some "t0k3n"
  ∧ cache' = {| cached_token := Some "t0k3n";
                cached_expiry := Some (1000 + 1799)%Q |}
  ∧ get_amadeus_token 2700%Q cache' TokenFailed = (Some "t0k3n", cache')
  ∧ ∀ expired, (1000 + 1799 - 60 <= expired)%Q →
      get_amadeus_token expired cache' TokenFailed = (None, cache').
Proof.
  apply (get_amadeus_token_reuse 1000%Q 2700%Q
           {| cached_token := Some "0ld"; cached_expiry := Some 1030%Q |}
           "t0k3n" 1799%Q TokenFailed).
  - intros held _ _. vm_compute. discriminate.
  - reflexivity.
  - reflexivity.
Defined.

(** X19. A token is served from the cache only while it has more than 60
    seconds left: when the answer does not depend on the response, the
    cache holds that token, not empty, with an expiry more than 60 seconds
    after [now], and the cache is unchanged. *)
Theorem get_amadeus_token_cached_only_if_fresh
    (now : Q) (cache : TokenCache) (token : string) (resp : TokenResponse) :
  get_amadeus_token now cache TokenFailed = (Some token, cache) →
  cached_token cache = Some token
  ∧ nonempty token = true
  ∧ (now + 60 < default 0 (cached_expiry cache))%Q
  ∧ get_amadeus_token now cache resp = (Some token, cache).
Proof.
  unfold get_amadeus_token.
  destruct (cached_token cache) as [t|]; [|done].
  destruct (nonempty t) eqn:Ht; [|done]. simpl.
  destruct (Qltb now (default 0%Q (cached_expiry cache) - 60)%Q) eqn:Hfresh; [|done].
  intros [= ->]. apply Qltb_lt in Hfresh.
  repeat split; [done|lra].
Qed.

Lemma get_amadeus_token_cached_only_if_fresh_witness :
  cached_token {| cached_token := Some "t0k3n"; cached_expiry := Some 2799%Q |}
  = Some "t0k3n"
  ∧ nonempty "t0k3n" = true
  ∧ (2700 + 60 < default 0
                   (cached_expiry {| cached_token := Some "t0k3n";
                                     cached_expiry := Some 2799%Q |}))%Q
  ∧ get_amadeus_token 2700%Q
      {| cached_token := Some "t0k3n"; cached_expiry := Some 2799%Q |}
      (TokenBody (Some "other") (Some 1799%Q))
    = (Some "t0k3n", {| cached_token := Some "t0k3n"; cached_expiry := Some 2799%Q |}).
Proof.
  apply (get_amadeus_token_cached_only_if_fresh 2700%Q
           {| cached_token := Some "t0k3n"; cached_expiry := Some 2799%Q |} "t0k3n").
  reflexivity.
Defined.

(** ** Display helpers *)

Lemma py_len_app s1 s2 : py_len (s1 +:+ s2) = (py_len s1 + py_len s2)%nat.
Proof. induction s1 as [|c s1 IH]; simpl; [done|]. rewrite IH. lia. Qed.

Lemma py_len_spaces n : py_len (spaces n) = n.
Proof. induction n as [|n IH]; simpl; [done|]. by rewrite IH. Qed.

Lemma string_app_assoc (s1 s2 s3 : string) : (s1 +:+ s2) +:+ s3 = s1 +:+ s2 +:+ s3.
Proof.
  induction s1 as [|c s1 IH]; [done|].
  change (String c ((s1 +:+ s2) +:+ s3) = String c (s1 +:+ s2 +:+ s3)).
  by f_equal.
Qed.

Lemma py_ljust_len width s : py_len (py_ljust width s) = Nat.max width (py_len s).
Proof. unfold py_ljust. rewrite py_len_app, py_len_spaces. lia. Qed.

(** X20. [row] never cuts a value: its width is the width of each column,
    or of the value when it is wider, plus the last value.  When the label
    fits in 20 characters and the first value in 18, the last value starts
    at column 38. *)
Theorem row_columns (label v1 v2 : string) :
  py_len (row label v1 v2)
  = (Nat.max 20 (py_len label) + Nat.max 18 (py_len v1) + py_len v2)%nat
  ∧ ((py_len label ≤ 20)%nat → (py_len v1 ≤ 18)%nat →
     ∃ pad1 pad2,
       row label v1 v2 = (label +:+ spaces pad1 +:+ v1 +:+ spaces pad2) +:+ v2
       ∧ py_len (label +:+ spaces pad1) = 20%nat
       ∧ py_len (label +:+ spaces pad1 +:+ v1 +:+ spaces pad2) = 38%nat).
Proof.
  split.
  - unfold row. rewrite !py_len_app, !py_ljust_len. unfold COL1, COL2. lia.
  - intros Hlabel Hv1.
    exists (20 - py_len label)%nat, (18 - py_len v1)%nat.
    split; [|split].
    + unfold row, py_ljust, COL1, COL2. by rewrite !string_app_assoc.
    + rewrite py_len_app, py_len_spaces. lia.
    + rewrite !py_len_app, !py_len_spaces. lia.
Qed.

Lemma py_fmt_02d_two_digits z :
  0 ≤ z < 60 → String.length (py_fmt_02d z) = 2%nat.
Proof.
  intros Hz.
  assert (Hall : forallb (λ n, (String.length (py_fmt_02d (Z.of_nat n)) =? 2)%nat)
                         (seq 0 60) = true) by (vm_compute; reflexivity).
  rewrite forallb_forall in Hall.
  specialize (Hall (Z.to_nat z)). rewrite Z2Nat.id in Hall by lia.
  apply Nat.eqb_eq, Hall, in_seq. lia.
Qed.

(** X21. [fmt_duration] shows a dash for 0 minutes, and otherwise splits
    the minutes into whole hours and a rest between 0 and 59 that is
    always written with two digits. *)
Theorem fmt_duration_parts (minutes : Z) :
  minutes ≠ 0 →
  ∃ hours rest digits,
    minutes = 60 * hours + rest
    ∧ 0 ≤ rest < 60
    ∧ digits = py_fmt_02d rest
    ∧ String.length digits = 2%nat
    ∧ fmt_duration minutes = py_str hours +:+ "h " +:+ digits +:+ "m"
    ∧ fmt_duration 0 = "—".
Proof.
  intros Hnz. exists (minutes / 60), (minutes mod 60), (py_fmt_02d (minutes mod 60)).
  pose proof (Z.mod_pos_bound minutes 60 ltac:(lia)) as Hrest.
  split; [apply Z.div_mod; lia|]. split; [done|]. split; [done|].
  split; [by apply py_fmt_02d_two_digits|].
  split; [|done]. unfold fmt_duration.
  by rewrite (proj2 (Z.eqb_neq _ _) Hnz).
Qed.

Lemma fmt_duration_parts_witness :
  ∃ hours rest digits,
    1300 = 60 * hours + rest
    ∧ 0 ≤ rest < 60
    ∧ digits = py_fmt_02d rest
    ∧ String.length digits = 2%nat
    ∧ fmt_duration 1300 = py_str hours +:+ "h " +:+ digits +:+ "m"
    ∧ fmt_duration 0 = "—".
Proof. apply (fmt_duration_parts 1300). lia. Defined.

Example fmt_duration_ex :
  fmt_duration 1300 = "21h 40m" ∧ fmt_duration 65 = "1h 05m" ∧ fmt_duration 0 = "—"
  ∧ fmt_duration (-5) = "-1h 55m"
  ∧ row "Flights" "QR150" "x" = "Flights             QR150             x".
Proof. repeat split; vm_compute; reflexivity. Qed.

(** *** Durations *)

Lemma string_app_cons c (s t : string) : String c s +:+ t = String c (s +:+ t).
Proof. reflexivity. Qed.

Lemma string_app_nil_l (s : string) : "" +:+ s = s.
Proof. reflexivity. Qed.

Lemma string_app_nil_r (s : string) : s +:+ "" = s.
Proof.
  induction s as [|c s IH]; [done|]. rewrite string_app_cons. by f_equal.
Qed.

(** A run of digits is read to its end. *)
Lemma first_digits_before_run stop (digits rest run : string) :
  Forall (λ c, is_digit c = true) (String.list_ascii_of_string digits) →
  first_digits_before stop (digits +:+ rest) run
  = first_digits_before stop rest (run +:+ digits).
Proof.
  revert run. induction digits as [|c digits IH]; intros run Hall.
  - by rewrite string_app_nil_r.
  - simpl in Hall. apply Forall_cons in Hall as [Hc Hall].
    rewrite string_app_cons. simpl. rewrite Hc, IH by done.
    f_equal. rewrite string_app_assoc. by rewrite string_app_cons.
Qed.

Lemma first_digits_before_fresh stop (digits rest : string) :
  Forall (λ c, is_digit c = true) (String.list_ascii_of_string digits) →
  first_digits_before stop (digits +:+ rest) "" = first_digits_before stop rest digits.
Proof. apply first_digits_before_run. Qed.

Lemma string_of_uint_digits d :
  Forall (λ c, is_digit c = true)
         (String.list_ascii_of_string (NilEmpty.string_of_uint d)).
Proof. induction d; simpl; constructor; done. Qed.

Lemma string_of_uint_nonempty d :
  d ≠ Decimal.Nil → nonempty (NilEmpty.string_of_uint d) = true.
Proof. by destruct d. Qed.

(** The decimal text of a natural number, and how it reads back. *)
Lemma py_str_digits (z : Z) :
  0 ≤ z →
  Forall (λ c, is_digit c = true) (String.list_ascii_of_string (py_str z))
  ∧ nonempty (py_str z) = true
  ∧ py_int_digits (py_str z) = z.
Proof.
  intros Hz. unfold py_str, py_int_digits.
  destruct z as [|p|p]; [by repeat constructor | | lia].
  change (Z.to_int (Z.pos p)) with (Decimal.Pos (Pos.to_uint p)).
  pose proof (DecimalPos.Unsigned.to_uint_nonnil p) as Hnil.
  assert (Hstr : NilZero.string_of_int (Decimal.Pos (Pos.to_uint p))
                 = NilEmpty.string_of_uint (Pos.to_uint p)).
  { simpl. unfold NilZero.string_of_uint. by destruct (Pos.to_uint p). }
  rewrite Hstr. split; [apply string_of_uint_digits|].
  split; [by apply string_of_uint_nonempty|].
  rewrite NilEmpty.usu. unfold Z.of_uint.
  by rewrite DecimalPos.Unsigned.of_to.
Qed.

(** X22. [_total_minutes] reads back a duration written as hours and
    minutes: for natural numbers [h] and [m], the texts [PT{h}H{m}M],
    [PT{h}H] and [PT{m}M] give [60·h + m], [60·h] and [m] minutes; the
    empty text gives 0. *)
Theorem total_minutes_of_duration (h m : Z) :
  0 ≤ h → 0 ≤ m →
  _total_minutes ("PT" +:+ py_str h +:+ "H" +:+ py_str m +:+ "M") = 60 * h + m
  ∧ _total_minutes ("PT" +:+ py_str h +:+ "H") = 60 * h
  ∧ _total_minutes ("PT" +:+ py_str m +:+ "M") = m
  ∧ _total_minutes "" = 0.
Proof.
  intros Hh Hm.
  destruct (py_str_digits h Hh) as (Hdh & Hnh & Hvh).
  destruct (py_str_digits m Hm) as (Hdm & Hnm & Hvm).
  unfold _total_minutes. rewrite ?string_app_cons. simpl.
  rewrite ?string_app_nil_l.
  split; [|split; [|split; [|done]]].
  - rewrite (first_digits_before_fresh "H" (py_str h)) by done.
    rewrite (first_digits_before_fresh "M" (py_str h)) by done. simpl.
    rewrite Hnh. simpl.
    rewrite ?string_app_nil_l.
    rewrite (first_digits_before_fresh "M" (py_str m) "M") by done. simpl.
    rewrite Hnm, Hvh, Hvm. lia.
  - rewrite (first_digits_before_fresh "H" (py_str h)) by done.
    rewrite (first_digits_before_fresh "M" (py_str h)) by done. simpl.
    rewrite Hnh, Hvh. lia.
  - rewrite (first_digits_before_fresh "H" (py_str m)) by done.
    rewrite (first_digits_before_fresh "M" (py_str m)) by done. simpl.
    rewrite Hnm, Hvm. lia.
Qed.

Lemma total_minutes_of_duration_witness :
  _total_minutes ("PT" +:+ py_str 21 +:+ "H" +:+ py_str 40 +:+ "M") = 60 * 21 + 40
  ∧ _total_minutes ("PT" +:+ py_str 21 +:+ "H") = 60 * 21
  ∧ _total_minutes ("PT" +:+ py_str 40 +:+ "M") = 40
  ∧ _total_minutes "" = 0.
Proof. apply (total_minutes_of_duration 21 40); lia. Defined.

(** X23. A duration of [h] hours and [m] minutes, [m] below 60 and not
    both 0, written in the ISO form and read by [_total_minutes], is shown
    by [fmt_duration] with the same hours and the minutes in two
    digits. *)
Theorem fmt_duration_of_total_minutes (h m : Z) :
  0 ≤ h → 0 ≤ m < 60 → h + m ≠ 0 →
  fmt_duration (_total_minutes ("PT" +:+ py_str h +:+ "H" +:+ py_str m +:+ "M"))
  = py_str h +:+ "h " +:+ py_fmt_02d m +:+ "m".
Proof.
  intros Hh Hm Hnz.
  assert (Htotal : _total_minutes ("PT" +:+ py_str h +:+ "H" +:+ py_str m +:+ "M")
                   = 60 * h + m).
  { destruct (py_str_digits h Hh) as (Hdh & Hnh & Hvh).
    destruct (py_str_digits m ltac:(lia)) as (Hdm & Hnm & Hvm).
    unfold _total_minutes. rewrite ?string_app_cons. simpl.
  rewrite ?string_app_nil_l.
    rewrite (first_digits_before_fresh "H" (py_str h)) by done.
    rewrite (first_digits_before_fresh "M" (py_str h)) by done. simpl.
    rewrite Hnh. simpl.
    rewrite ?string_app_nil_l.
    rewrite (first_digits_before_fresh "M" (py_str m) "M") by done. simpl.
    rewrite Hnm, Hvh, Hvm. lia. }
  rewrite Htotal. unfold fmt_duration.
  rewrite (proj2 (Z.eqb_neq _ _)) by lia.
  replace ((60 * h + m) / 60) with h by (apply Z.div_unique with m; lia).
  replace ((60 * h + m) mod 60) with m by (apply Z.mod_unique with h; lia).
  done.
Qed.

Lemma fmt_duration_of_total_minutes_witness :
  fmt_duration (_total_minutes ("PT" +:+ py_str 21 +:+ "H" +:+ py_str 5 +:+ "M"))
  = py_str 21 +:+ "h " +:+ py_fmt_02d 5 +:+ "m".
Proof. apply (fmt_duration_of_total_minutes 21 5); lia. Defined.

Example total_minutes_ex :
  _total_minutes "PT21H40M" = 1300 ∧ _total_minutes "PT9H" = 540
  ∧ _total_minutes "PT45M" = 45 ∧ _total_minutes "P1DT2H5M" = 125
  ∧ _total_minutes "H12M" = 12 ∧ _total_minutes "soon" = 0.
Proof. repeat split; vm_compute; reflexivity. Qed.
